(** * githublog feed builder: a shallow embedding of [feed-builder/index.ts]

    The program scans a repository of dated markdown posts
    ([<repo>/<year>/<month>/<day>/<post>]), orders the posts by date,
    extracts a title and a short description from each and writes an RSS
    document to [<repo>/feed.xml].

    The embedding follows the source function by function.  What the
    source takes from its runtime is modelled next to it: JavaScript
    strings and arrays ([JsString], [JsArray]), [Date] ([JsDate]) and the
    [fs/promises] calls ([NodeFs]).  The markdown reducer
    ([remark().use(strip)]) is a parameter of the development. *)

From Stdlib Require Import ZArith String Ascii List Lia Bool Permutation Sorted.
From stdpp Require Import base gmap strings.
Import ListNotations.

Open Scope string_scope.
Open Scope list_scope.
Open Scope Z_scope.

(** ** JavaScript strings

    A string is a sequence of code units; [string] stands for the strings
    whose code units are below 256.  [+:+] is concatenation. *)

Module JsString.

Definition LF : ascii := "010"%char.
Definition newline : string := String LF "".

(** [s.length] *)
Definition len (s : string) : nat := String.length s.

(** [s.split(sep)] for a one-character separator: never empty, the
    empty string splits into one empty piece. *)
Fixpoint split (sep : ascii) (s : string) : list string :=
  match s with
  | EmptyString => [EmptyString]
  | String c rest =>
      if Ascii.eqb c sep then EmptyString :: split sep rest
      else match split sep rest with
           | piece :: pieces => String c piece :: pieces
           | [] => [String c EmptyString]
           end
  end.

(** [Boolean(s)]: a string is truthy unless it is empty. *)
Definition truthy (s : string) : bool :=
  match s with EmptyString => false | String _ _ => true end.

(** [arr.join(sep)] *)
Fixpoint join (sep : string) (arr : list string) : string :=
  match arr with
  | [] => EmptyString
  | [x] => x
  | x :: rest => x +:+ sep +:+ join sep rest
  end.

(** [s.slice(0, n)] *)
Fixpoint take (n : nat) (s : string) : string :=
  match n, s with
  | S k, String c rest => String c (take k rest)
  | _, _ => EmptyString
  end.

(** White space and line terminators, as [trim] understands them. *)
Definition isSpace (c : ascii) : bool :=
  let n := nat_of_ascii c in
  ((9 <=? n) && (n <=? 13) || (n =? 32) || (n =? 160))%nat.

Fixpoint trimStart (s : string) : string :=
  match s with
  | String c rest => if isSpace c then trimStart rest else s
  | EmptyString => EmptyString
  end.

Fixpoint trimEnd (s : string) : string :=
  match s with
  | EmptyString => EmptyString
  | String c rest =>
      match trimEnd rest with
      | EmptyString => if isSpace c then EmptyString else String c EmptyString
      | kept => String c kept
      end
  end.

(** [s.trim()] *)
Definition trim (s : string) : string := trimEnd (trimStart s).

(** [s.replace(/\n/g, ' ')] *)
Fixpoint newlinesToSpaces (s : string) : string :=
  match s with
  | EmptyString => EmptyString
  | String c rest =>
      String (if Ascii.eqb c LF then " "%char else c) (newlinesToSpaces rest)
  end.

(** [s.startsWith(p)], and the rest of [s] after [p]. *)
Fixpoint stripPrefix (p s : string) : option string :=
  match p, s with
  | EmptyString, _ => Some s
  | String a p', String b s' =>
      if Ascii.eqb a b then stripPrefix p' s' else None
  | String _ _, EmptyString => None
  end.

(** [s.endsWith(p)] *)
Fixpoint endsWith (s p : string) : bool :=
  String.eqb s p ||
  match s with
  | EmptyString => false
  | String _ rest => endsWith rest p
  end.

(** The first occurrence of [pat] in [s]: the text before it and the
    text after it. *)
Fixpoint cut (pat s : string) : option (string * string) :=
  match stripPrefix pat s with
  | Some after => Some (EmptyString, after)
  | None =>
      match s with
      | EmptyString => None
      | String c rest =>
          match cut pat rest with
          | Some (before, after) => Some (String c before, after)
          | None => None
          end
      end
  end.

(** The replacement text of [String.prototype.replace] with a string
    pattern: [$$], [$&], [$`] and [$'] are substitution patterns, every
    other character stands for itself (there are no captures). *)
Fixpoint substitution (matched before after replacement : string) : string :=
  match replacement with
  | EmptyString => EmptyString
  | String c rest =>
      if Ascii.eqb c "$"%char then
        match rest with
        | String d rest' =>
            if Ascii.eqb d "$"%char then
              "$" +:+ substitution matched before after rest'
            else if Ascii.eqb d "&"%char then
              matched +:+ substitution matched before after rest'
            else if Ascii.eqb d "`"%char then
              before +:+ substitution matched before after rest'
            else if Ascii.eqb d "'"%char then
              after +:+ substitution matched before after rest'
            else String c (substitution matched before after rest)
        | EmptyString => String c EmptyString
        end
      else String c (substitution matched before after rest)
  end.

(** [s.replace(pat, replacement)] with a string pattern: the first
    occurrence only. *)
Definition replace (pat replacement s : string) : string :=
  match cut pat s with
  | Some (before, after) =>
      before +:+ substitution pat before after replacement +:+ after
  | None => s
  end.

Definition isDigit (c : ascii) : bool :=
  let n := nat_of_ascii c in ((48 <=? n) && (n <=? 57))%nat.

Definition digitValue (c : ascii) : Z := Z.of_nat (nat_of_ascii c) - 48.

(** Decimal digits read left to right. *)
Fixpoint readDigits (acc : Z) (s : string) : option Z :=
  match s with
  | EmptyString => Some acc
  | String c rest =>
      if isDigit c then readDigits (10 * acc + digitValue c) rest else None
  end.

Definition digitChar (d : Z) : ascii := ascii_of_nat (Z.to_nat (48 + d)).

(** A non-negative number in decimal, [fuel] digits at most. *)
Fixpoint decimalAux (fuel : nat) (n : Z) (acc : string) : string :=
  match fuel with
  | O => acc
  | S k =>
      let acc' := String (digitChar (n mod 10)) acc in
      if n <? 10 then acc' else decimalAux k (n / 10) acc'
  end.

(** [String(n)] for an integer *)
Definition decimal (n : Z) : string :=
  if n <? 0 then "-" +:+ decimalAux 40 (- n) EmptyString
  else decimalAux 40 n EmptyString.

(** [String(n).padStart(2, '0')] *)
Definition twoDigits (n : Z) : string :=
  if n <? 10 then "0" +:+ decimal n else decimal n.

(** [String(n).padStart(4, '0')] *)
Definition fourDigits (n : Z) : string :=
  if n <? 10 then "000" +:+ decimal n
  else if n <? 100 then "00" +:+ decimal n
  else if n <? 1000 then "0" +:+ decimal n
  else decimal n.

End JsString.

(** ** JavaScript dates

    A time value is a number of milliseconds since 1970-01-01T00:00:00Z,
    or NaN ([None]).  The host's local time zone is a fixed offset
    [tz], in minutes east of UTC. *)

Module JsDate.

Definition msPerDay : Z := 86400000.
Definition msPerMinute : Z := 60000.

(** [Day(t)] and [TimeWithinDay(t)] *)
Definition Day (t : Z) : Z := t / msPerDay.
Definition TimeWithinDay (t : Z) : Z := t mod msPerDay.

(** [MakeDay(year, month - 1, date)]: the day number of a calendar date
    of the proleptic Gregorian calendar; a [date] beyond the end of the
    month runs on into the next one. *)
Definition MakeDay (year month date : Z) : Z :=
  let y := if month <=? 2 then year - 1 else year in
  let era := y / 400 in
  let yoe := y - era * 400 in
  let mp := if month <=? 2 then month + 9 else month - 3 in
  let doy := (153 * mp + 2) / 5 + date - 1 in
  let doe := yoe * 365 + yoe / 4 - yoe / 100 + doy in
  era * 146097 + doe - 719468.

(** [MakeDate(day, time)] *)
Definition MakeDate (day time : Z) : Z := day * msPerDay + time.

(** [LocalTime(t)] and [UTC(t)], for a zone [tz] minutes east of UTC.
    A zone with daylight saving has one such offset for each part of
    the year; the offset is one number here. *)
Definition LocalTime (tz t : Z) : Z := t + tz * msPerMinute.
Definition UTC (tz t : Z) : Z := t - tz * msPerMinute.

(** [YearFromTime], [MonthFromTime] (1-based here) and [DateFromTime],
    from the day number. *)
Definition civil (day : Z) : Z * Z * Z :=
  let z := day + 719468 in
  let era := z / 146097 in
  let doe := z - era * 146097 in
  let yoe := (doe - doe / 1460 + doe / 36524 - doe / 146096) / 365 in
  let doy := doe - (365 * yoe + yoe / 4 - yoe / 100) in
  let mp := (5 * doy + 2) / 153 in
  let d := doy - (153 * mp + 2) / 5 + 1 in
  let m := if mp <? 10 then mp + 3 else mp - 9 in
  let y := yoe + era * 400 in
  (if m <=? 2 then y + 1 else y, m, d).

Definition YearFromTime (t : Z) : Z := fst (fst (civil (Day t))).
Definition MonthFromTime (t : Z) : Z := snd (fst (civil (Day t))).
Definition DateFromTime (t : Z) : Z := snd (civil (Day t)).

(** [WeekDay(t)], 0 for Sunday *)
Definition WeekDay (t : Z) : Z := (Day t + 4) mod 7.

Definition HourFromTime (t : Z) : Z := TimeWithinDay t / 3600000.
Definition MinFromTime (t : Z) : Z := (TimeWithinDay t / 60000) mod 60.
Definition SecFromTime (t : Z) : Z := (TimeWithinDay t / 1000) mod 60.

Definition dayName (w : Z) : string :=
  nth (Z.to_nat w) ["Sun"; "Mon"; "Tue"; "Wed"; "Thu"; "Fri"; "Sat"] "".

Definition monthName (m : Z) : string :=
  nth (Z.to_nat (m - 1))
    ["Jan"; "Feb"; "Mar"; "Apr"; "May"; "Jun";
     "Jul"; "Aug"; "Sep"; "Oct"; "Nov"; "Dec"] "".

Definition yearText (y : Z) : string :=
  if y <? 0 then "-" +:+ JsString.fourDigits (- y) else JsString.fourDigits y.

(** The two halves of [toUTCString]: ["Thu, 07 Mar 2024"] and
    ["00:00:00"]. *)
Definition utcDateText (t : Z) : string :=
  dayName (WeekDay t) +:+ ", " +:+ JsString.twoDigits (DateFromTime t) +:+ " "
  +:+ monthName (MonthFromTime t) +:+ " " +:+ yearText (YearFromTime t).

Definition utcTimeText (t : Z) : string :=
  JsString.twoDigits (HourFromTime t) +:+ ":"
  +:+ JsString.twoDigits (MinFromTime t) +:+ ":"
  +:+ JsString.twoDigits (SecFromTime t).

(** [date.toUTCString()] *)
Definition toUTCString (tv : option Z) : string :=
  match tv with
  | Some t => utcDateText t +:+ " " +:+ utcTimeText t +:+ " GMT"
  | None => "Invalid Date"
  end.

(** [date.getFullYear()], a year of the local calendar; the program
    calls it on the current time only. *)
Definition getFullYear (tz t : Z) : Z := YearFromTime (LocalTime tz t).

(** One or two decimal digits. *)
Definition shortNumber (s : string) : option Z :=
  match String.length s with
  | 1%nat | 2%nat => JsString.readDigits 0 s
  | _ => None
  end.

(** Four decimal digits, the first of them not a zero. *)
Definition fourDigitYear (s : string) : option Z :=
  match s with
  | String c _ =>
      if (String.length s =? 4)%nat && negb (Ascii.eqb c "0"%char)
      then JsString.readDigits 0 s else None
  | EmptyString => None
  end.

(** [new Date(text)] for a text that is not in the ISO format.  What a
    host does with such a text is its own business; Node reads
    [YYYY/M/D] as midnight of that day in local time, with a month
    from 1 to 12 and a day from 1 to 31, and answers NaN for a month or
    day out of that range.  Texts of any other shape are left to
    [otherFormats]. *)
Definition parse (tz : Z) (otherFormats : string -> option Z)
    (text : string) : option Z :=
  match JsString.split "/"%char text with
  | [ys; ms; ds] =>
      match fourDigitYear ys, shortNumber ms, shortNumber ds with
      | Some y, Some m, Some d =>
          if (1 <=? m) && (m <=? 12) && (1 <=? d) && (d <=? 31)
          then Some (UTC tz (MakeDate (MakeDay y m d) 0))
          else None
      | _, _, _ => otherFormats text
      end
  | _ => otherFormats text
  end.

End JsDate.

(** ** JavaScript arrays *)

Module JsArray.

Section Sort.
Context {A : Type}.

(** The answer of a comparator is a number; NaN ([None]) counts as
    zero. *)
Variable comparefn : A -> A -> option Z.

Definition sortCompare (x y : A) : Z :=
  match comparefn x y with
  | Some v => v
  | None => 0
  end.

(** [x] joins a sorted prefix held last element first: it moves left
    past the elements that compare greater than it, and past no
    other. *)
Fixpoint insertFromRight (x : A) (prefixRev : list A) : list A :=
  match prefixRev with
  | y :: rest =>
      if 0 <? sortCompare y x then y :: insertFromRight x rest
      else x :: prefixRev
  | [] => [x]
  end.

(** [arr.sort(comparefn)].  The sort is stable.  With a consistent
    comparator the language fixes the result, and this insertion
    sort computes it; with any other comparator the result is the
    host's choice, and this is an insertion sort's. *)
Definition sort (arr : list A) : list A :=
  rev (fold_left (fun prefixRev x => insertFromRight x prefixRev) arr []).

End Sort.

End JsArray.

(** ** The two regular expressions of the program *)

Module JsRegExp.

Import JsString.

(** A dot matches any character but a line terminator. *)
Definition isLineTerminator (c : ascii) : bool :=
  let n := nat_of_ascii c in ((n =? 10) || (n =? 13))%nat.

(** [/^2[0-9]{3}$/.test(s)] *)
Definition yearRegex (s : string) : bool :=
  match s with
  | String a (String b (String c (String d EmptyString))) =>
      Ascii.eqb a "2"%char && isDigit b && isDigit c && isDigit d
  | _ => false
  end.

Definition prepend (head : string) (tail : option string) : option string :=
  match tail with
  | Some t => Some (head +:+ t)
  | None => None
  end.

(** The end of the capture and what follows it, [\d{1,2}).+]: two
    digits when a further character is left for [.+], one digit
    otherwise. *)
Definition dayAt (s : string) : option string :=
  match s with
  | String a (String b rest) =>
      if isDigit a then
        if isDigit b
           && match rest with
              | String c _ => negb (isLineTerminator c)
              | EmptyString => false
              end
        then Some (String a (String b EmptyString))
        else if negb (isLineTerminator b) then Some (String a EmptyString)
        else None
      else None
  | _ => None
  end.

(** [\d{1,2}\/] and the day *)
Definition monthAt (s : string) : option string :=
  match s with
  | String a (String b rest) =>
      if isDigit a then
        if Ascii.eqb b "/"%char then
          prepend (String a (String b EmptyString)) (dayAt rest)
        else if isDigit b then
          match rest with
          | String c rest' =>
              if Ascii.eqb c "/"%char
              then prepend (String a (String b (String c EmptyString)))
                           (dayAt rest')
              else None
          | EmptyString => None
          end
        else None
      else None
  | _ => None
  end.

(** [(2\d{3}\/\d{1,2}\/\d{1,2}).+] at the head of [s]: the capture. *)
Definition dateAt (s : string) : option string :=
  match s with
  | String a (String b (String c (String d (String e rest)))) =>
      if Ascii.eqb a "2"%char && isDigit b && isDigit c && isDigit d
         && Ascii.eqb e "/"%char
      then prepend (String a (String b (String c (String d (String e EmptyString)))))
                   (monthAt rest)
      else None
  | _ => None
  end.

(** [.+?] takes one character, then one more each time the rest of the
    expression fails. *)
Fixpoint lazyDots (s : string) : option string :=
  match s with
  | String c rest =>
      if isLineTerminator c then None
      else match dateAt rest with
           | Some capture => Some capture
           | None => lazyDots rest
           end
  | EmptyString => None
  end.

(** [s.match(/.+?(2\d{3}\/\d{1,2}\/\d{1,2}).+/)]: the first capture of
    the leftmost match, or [None] for [null]. *)
Fixpoint dateExtractionRegex (s : string) : option string :=
  match lazyDots s with
  | Some capture => Some capture
  | None =>
      match s with
      | String _ rest => dateExtractionRegex rest
      | EmptyString => None
      end
  end.

End JsRegExp.

(** ** The file system, as [fs/promises] and [path] show it *)

Module NodeFs.

(** What a path names: a file with its text, a directory with the
    names in it in the order [readdir] reports them, or an entry the
    process has no access to. *)
Inductive entry : Type :=
| File (content : string)
| Dir (names : list string)
| Locked.

Inductive errno : Type := ENOENT | ENOTDIR | EISDIR | EACCES | ENOSPC.

(** A settled promise. *)
Inductive promise (A : Type) : Type :=
| Fulfilled (value : A)
| Rejected (reason : errno).
Arguments Fulfilled {A} value.
Arguments Rejected {A} reason.

(** [await p; k] and [p.then(k)] *)
Definition andThen {A B : Type} (p : promise A) (k : A -> promise B) : promise B :=
  match p with
  | Fulfilled a => k a
  | Rejected e => Rejected e
  end.

(** [Promise.all(ps)]: fulfilled with all the values when every promise
    is fulfilled, rejected as soon as one is.  Which rejection wins
    when several promises reject is a matter of timing; the first in
    the array stands for it. *)
Fixpoint all {A : Type} (ps : list (promise A)) : promise (list A) :=
  match ps with
  | [] => Fulfilled []
  | p :: rest =>
      andThen p (fun a => andThen (all rest) (fun others => Fulfilled (a :: others)))
  end.

Definition isFulfilled {A : Type} (p : promise A) : bool :=
  match p with Fulfilled _ => true | Rejected _ => false end.

(** [path.join(dir, name)] for a normalized [dir] and the name of a
    directory entry. *)
Definition join (dir name : string) : string :=
  if JsString.endsWith dir "/" then dir +:+ name else dir +:+ "/" +:+ name.

(** [path.dirname(p)] and [path.basename(p)] for a normalized path. *)
Definition dirname (p : string) : string :=
  match removelast (JsString.split "/"%char p) with
  | [] => "."
  | [EmptyString] => "/"
  | segments => JsString.join "/" segments
  end.

Definition basename (p : string) : string :=
  List.last (JsString.split "/"%char p) EmptyString.

(** [fs.readdir(path)] *)
Definition readdir (fs : gmap string entry) (path : string) : promise (list string) :=
  match fs !! path with
  | Some (Dir names) => Fulfilled names
  | Some (File _) => Rejected ENOTDIR
  | Some Locked => Rejected EACCES
  | None => Rejected ENOENT
  end.

(** [fs.readFile(path, 'utf-8')] *)
Definition readFile (fs : gmap string entry) (path : string) : promise string :=
  match fs !! path with
  | Some (File content) => Fulfilled content
  | Some (Dir _) => Rejected EISDIR
  | Some Locked => Rejected EACCES
  | None => Rejected ENOENT
  end.

(** Opening [path] with flag ['w']: the file is created if it is not
    there, and emptied if it is.  A new name is put last in the listing
    of its directory here; where [readdir] reports it is up to the file
    system. *)
Definition openForWriting (fs : gmap string entry) (path : string)
    : promise (gmap string entry) :=
  match fs !! path with
  | Some (File _) => Fulfilled (<[path := File EmptyString]> fs)
  | Some (Dir _) => Rejected EISDIR
  | Some Locked => Rejected EACCES
  | None =>
      match fs !! dirname path with
      | Some (Dir names) =>
          Fulfilled (<[path := File EmptyString]>
                       (<[dirname path := Dir (names ++ [basename path])]> fs))
      | Some (File _) => Rejected ENOTDIR
      | Some Locked => Rejected EACCES
      | None => Rejected ENOENT
      end
  end.

(** [fs.writeFile(path, data, 'utf-8')]: the file is opened with flag
    ['w'] and [data] is written into it from the start.  [room] is what
    the volume still accepts ([None]: all of it); when [data] is longer
    the write stops there and the promise is rejected.  The result is
    the promise and the file system as the call leaves it. *)
Definition writeFile (room : option nat) (fs : gmap string entry)
    (path data : string) : promise unit * gmap string entry :=
  match openForWriting fs path with
  | Rejected e => (Rejected e, fs)
  | Fulfilled opened =>
      match room with
      | Some k =>
          if (k <? String.length data)%nat
          then (Rejected ENOSPC, <[path := File (JsString.take k data)]> opened)
          else (Fulfilled tt, <[path := File data]> opened)
      | None => (Fulfilled tt, <[path := File data]> opened)
      end
  end.

End NodeFs.

(** ** The program *)

Record PostInfo : Type := { title : string; description : string }.

Section Program.

Import NodeFs.

(** [path.join(__dirname, '..')] *)
Variable repoDir : string.
(** The host's time zone, in minutes east of UTC, and what its [Date]
    makes of the texts [JsDate.parse] leaves open. *)
Variable tz : Z.
Variable otherFormats : string -> option Z.
(** The clock, as the two [new Date()] of the module read it. *)
Variable clockAtCopyright clockAtBuild : Z.
(** [remark().use(strip).process(text).then(String)]: the reducer is
    handed a text, or [undefined] ([None]). *)
Variable stripMarkdown : option string -> string.

Definition feedPath : string := join repoDir "feed.xml".

Definition githubURLBase : string := "https://github.com/francisrstokes/githublog".
Definition githubURLPrefix : string := githubURLBase +:+ "/blob/main".

Definition blogTitle : string := "Francis Stokes :: Githublog".
Definition blogDescription : string :=
  "I'm sick of complex blogging solutions, so markdown files in a git repo it is.".
Definition copyrightField : string :=
  JsString.decimal (JsDate.getFullYear tz clockAtCopyright)
  +:+ " Francis Stokes - All rights reserved".
Definition lastBuildDate : string := JsDate.toUTCString (Some clockAtBuild).
Definition ttl : Z := 86400 / 60.

Definition descriptionCharsToUse : nat := 420.

Definition quote : string := String (ascii_of_nat 34) EmptyString.

(** Lines, each closed by a line feed. *)
Fixpoint unlines (ls : list string) : string :=
  match ls with
  | [] => EmptyString
  | l :: rest => l +:+ JsString.newline +:+ unlines rest
  end.

Definition rssTemplate : string :=
  unlines
    [ "<?xml version=" +:+ quote +:+ "1.0" +:+ quote
        +:+ " encoding=" +:+ quote +:+ "UTF-8" +:+ quote +:+ " ?>";
      "<rss version=" +:+ quote +:+ "2.0" +:+ quote +:+ ">";
      "<channel>";
      " <title>" +:+ blogTitle +:+ "</title>";
      " <description>" +:+ blogDescription +:+ "</description>";
      " <link>" +:+ githubURLBase +:+ "</link>";
      " <copyright>" +:+ copyrightField +:+ "</copyright>";
      " <lastBuildDate>" +:+ lastBuildDate +:+ "</lastBuildDate>";
      " <pubDate>" +:+ lastBuildDate +:+ "</pubDate>";
      " <ttl>" +:+ JsString.decimal ttl +:+ "</ttl>";
      "";
      "{blog_entries}";
      "";
      "</channel>";
      "</rss>" ].

(** With no line that is not empty, [contentWithoutEmptyLines[0]] is
    [undefined]. *)
Definition extractPostInfo (markdownContents : string) : PostInfo :=
  let contentWithoutEmptyLines :=
    List.filter JsString.truthy (JsString.split JsString.LF markdownContents) in
  let title := stripMarkdown (head contentWithoutEmptyLines) in
  let nonTitleContent :=
    JsString.take descriptionCharsToUse
      (JsString.join JsString.newline (tail contentWithoutEmptyLines)) in
  let description :=
    JsString.newlinesToSpaces (JsString.trim (stripMarkdown (Some nonTitleContent)))
    +:+ "..." in
  {| title := title; description := description |}.

Definition generateRSSItem (postInfo : PostInfo) (link date : string) : string :=
  unlines
    [ "<item>";
      "  <title>" +:+ title postInfo +:+ "</title>";
      "  <description>" +:+ description postInfo +:+ "</description>";
      "  <link>" +:+ link +:+ "</link>";
      "  <pubDate>" +:+ date +:+ "</pubDate>";
      "</item>" ].

(** [dirs.map(dir => fs.readdir(dir).then(names => names.map(name =>
    path.join(dir, name))))], all awaited and flattened. *)
Definition listAll (fs : gmap string entry) (dirs : list string)
    : promise (list string) :=
  andThen
    (all (map (fun dir =>
                 andThen (readdir fs dir)
                   (fun names => Fulfilled (map (join dir) names)))
              dirs))
    (fun nested => Fulfilled (concat nested)).

Definition findBlogsInYearDir (fs : gmap string entry) (yearDir : string)
    : promise (list string) :=
  andThen (readdir fs yearDir) (fun monthDirs =>
  andThen (listAll fs (map (join yearDir) monthDirs)) (fun dayDirs =>
  listAll fs dayDirs)).

(** Lines 94 to 101 of [main]: [allBlogs]. *)
Definition findAllBlogs (fs : gmap string entry) : promise (list string) :=
  andThen (readdir fs repoDir) (fun results =>
  let blogDirs := map (join repoDir) (List.filter JsRegExp.yearRegex results) in
  andThen (all (map (findBlogsInYearDir fs) blogDirs)) (fun allBlogsInYear =>
  Fulfilled (concat allBlogsInYear))).

(** The date a path sorts by: [new Date(match[1])] as a number, when
    the expression matches. *)
Definition matchedDate (blog : string) : option (option Z) :=
  match JsRegExp.dateExtractionRegex blog with
  | Some capture => Some (JsDate.parse tz otherFormats capture)
  | None => None
  end.

(** [x - y] on numbers *)
Definition minus (x y : option Z) : option Z :=
  match x, y with
  | Some a, Some b => Some (a - b)
  | _, _ => None
  end.

(** The comparator of lines 106 to 114. *)
Definition compareBlogs (a b : string) : option Z :=
  match matchedDate a, matchedDate b with
  | Some aDate, Some bDate => minus aDate bDate
  | _, _ => Some 0
  end.

(** Lines 105 to 114: [allBlogs.sort(...)]. *)
Definition sortBlogs (allBlogs : list string) : list string :=
  JsArray.sort compareBlogs allBlogs.

(** Line 117 *)
Definition readPosts (fs : gmap string entry) (allBlogs : list string)
    : promise (list PostInfo) :=
  all (map (fun blog =>
              andThen (readFile fs blog)
                (fun text => Fulfilled (extractPostInfo text)))
           allBlogs).

(** Lines 120 to 123, for one blog *)
Definition extractedDate (blog : string) : string :=
  JsString.join "/"
    (firstn 3 (JsString.split "/"%char
                 (JsString.replace (repoDir +:+ "/") EmptyString blog))).

Definition pubDate (blog : string) : string :=
  JsDate.toUTCString (JsDate.parse tz otherFormats (extractedDate blog)).

(** Line 126, for one blog *)
Definition url (blog : string) : string :=
  JsString.replace repoDir githubURLPrefix blog.

(** Lines 129 to 132: the three arrays have one length. *)
Fixpoint rssItems (postInfo : list PostInfo) (urls dates : list string)
    : list string :=
  match postInfo, urls, dates with
  | info :: postInfo', link :: urls', date :: dates' =>
      generateRSSItem info link date :: rssItems postInfo' urls' dates'
  | _, _, _ => []
  end.

(** Lines 134 and 135 *)
Definition rssFeed (items : list string) : string :=
  JsString.replace "{blog_entries}" (JsString.join JsString.newline items) rssTemplate.

(** The feed of a run that gets as far as writing it. *)
Definition buildFeed (fs : gmap string entry) : promise string :=
  andThen (findAllBlogs fs) (fun scanned =>
  let allBlogs := sortBlogs scanned in
  andThen (readPosts fs allBlogs) (fun postInfo =>
  let dates := map pubDate allBlogs in
  let urls := map url allBlogs in
  Fulfilled (rssFeed (rssItems postInfo urls dates)))).

(** [main()]: the promise it returns and the file system it leaves.
    [room] is what the volume accepts of the final write. *)
Definition main (room : option nat) (fs : gmap string entry)
    : promise unit * gmap string entry :=
  match buildFeed fs with
  | Fulfilled feed => writeFile room fs feedPath feed
  | Rejected e => (Rejected e, fs)
  end.

End Program.

(** ** Notions the properties are stated with *)

Section Notions.

Import NodeFs.

Variable repoDir : string.
Variable tz : Z.
Variable otherFormats : string -> option Z.

(** The date the ordering step resolves for a path, if any: a path
    without the date pattern, or with a month outside 1 to 12 or a day
    outside 1 to 31, has none. *)
Definition resolvedDate (blog : string) : option Z :=
  match matchedDate tz otherFormats blog with
  | Some (Some t) => Some t
  | _ => None
  end.

(** [blog] has the resolved date [t]. *)
Definition datedAt (t : Z) (blog : string) : bool :=
  match resolvedDate blog with
  | Some t' => t' =? t
  | None => false
  end.

(** [name] is one of the names [readdir] reports for [dir]. *)
Definition lists (fs : gmap string entry) (dir name : string) : Prop :=
  exists names, readdir fs dir = Fulfilled names /\ In name names.

(** [dir] can be listed. *)
Definition listable (fs : gmap string entry) (dir : string) : Prop :=
  isFulfilled (readdir fs dir) = true.

(** [path] is [<repo>/<year>/<month>/<day>/<name>] for names the
    directories list, [<year>] matching [yearRegex]. *)
Definition underDateDirs (fs : gmap string entry) (path : string) : Prop :=
  exists year month day name,
    lists fs repoDir year /\ JsRegExp.yearRegex year = true /\
    lists fs (join repoDir year) month /\
    lists fs (join (join repoDir year) month) day /\
    lists fs (join (join (join repoDir year) month) day) name /\
    path = join (join (join (join repoDir year) month) day) name.

(** [item] is the item of [blog] as the run renders it from the text it
    reads at that path. *)
Definition rendersAs (stripMarkdown : option string -> string)
    (fs : gmap string entry) (blog item : string) : Prop :=
  exists text,
    readFile fs blog = Fulfilled text /\
    item = generateRSSItem (extractPostInfo stripMarkdown text)
             (url repoDir blog) (pubDate repoDir tz otherFormats blog).

(** A feed with the text of its [lastBuildDate] element taken out. *)
Definition withoutBuildTimestamp (feed : string) : string :=
  match JsString.cut "<lastBuildDate>" feed with
  | Some (before, rest) =>
      match JsString.cut "</lastBuildDate>" rest with
      | Some (_, after) => before +:+ "<lastBuildDate></lastBuildDate>" +:+ after
      | None => feed
      end
  | None => feed
  end.

End Notions.

(** [x] stands before [y] in [l], and nowhere after it. *)
Definition strictlyBefore {A : Type} (x y : A) (l : list A) : Prop :=
  forall front back, l = front ++ y :: back -> In x front /\ ~ In x back.

(** ** Sample inputs *)

Module Samples.

Import NodeFs.

(** A reducer for texts that hold no markup: the text itself, and
    nothing for [undefined]. *)
Definition verbatim (text : option string) : string :=
  match text with
  | Some s => s
  | None => EmptyString
  end.

(** A host whose [Date] reads the [YYYY/M/D] form only. *)
Definition noOtherFormats (text : string) : option Z := None.

Definition repo : string := "/home/blog/githublog".

(** Two posts of 2024, and between them (in the order the names sort)
    a directory that is not a month. *)
Definition fsStrayMonth : gmap string entry :=
  list_to_map
    [ ("/home/blog/githublog", Dir ["2024"; "README.md"]);
      ("/home/blog/githublog/README.md", File "# Githublog");
      ("/home/blog/githublog/2024", Dir ["11"; "1x"; "3"]);
      ("/home/blog/githublog/2024/11", Dir ["1"]);
      ("/home/blog/githublog/2024/11/1", Dir ["late.md"]);
      ("/home/blog/githublog/2024/11/1/late.md", File "# Late");
      ("/home/blog/githublog/2024/1x", Dir ["1"]);
      ("/home/blog/githublog/2024/1x/1", Dir ["draft.md"]);
      ("/home/blog/githublog/2024/1x/1/draft.md", File "# Draft");
      ("/home/blog/githublog/2024/3", Dir ["1"]);
      ("/home/blog/githublog/2024/3/1", Dir ["early.md"]);
      ("/home/blog/githublog/2024/3/1/early.md", File "# Early") ].

(** Two posts, one of which cannot be read. *)
Definition fsLockedPost : gmap string entry :=
  list_to_map
    [ ("/home/blog/githublog", Dir ["2024"]);
      ("/home/blog/githublog/2024", Dir ["3"]);
      ("/home/blog/githublog/2024/3", Dir ["7"]);
      ("/home/blog/githublog/2024/3/7", Dir ["open.md"; "locked.md"]);
      ("/home/blog/githublog/2024/3/7/open.md", File "# Open");
      ("/home/blog/githublog/2024/3/7/locked.md", Locked) ].

(** A feed of an earlier run, and no post. *)
Definition fsStaleFeed : gmap string entry :=
  list_to_map
    [ ("/home/blog/githublog", Dir ["feed.xml"]);
      ("/home/blog/githublog/feed.xml", File "<rss>the feed of the last run</rss>") ].

(** A directory that is not a year, and one post. *)
Definition fsOnePost : gmap string entry :=
  list_to_map
    [ ("/home/blog/githublog", Dir ["assets"; "2023"]);
      ("/home/blog/githublog/assets", Dir ["Uno.png"]);
      ("/home/blog/githublog/assets/Uno.png", File "PNG");
      ("/home/blog/githublog/2023", Dir ["1"]);
      ("/home/blog/githublog/2023/1", Dir ["1"]);
      ("/home/blog/githublog/2023/1/1", Dir ["x.ext"]);
      ("/home/blog/githublog/2023/1/1/x.ext", File "Hello World") ].

(** Clock readings: the last second of 2023 and the second after the
    first of 2024, both UTC. *)
Definition lastSecondOf2023 : Z := 1704067199000.
Definition secondSecondOf2024 : Z := 1704067201000.

End Samples.

(** ** Checks of the date arithmetic *)

Definition monthNumbers : list Z := [1; 2; 3; 4; 5; 6; 7; 8; 9; 10; 11; 12].

Definition dayNumbers : list Z :=
  [1; 2; 3; 4; 5; 6; 7; 8; 9; 10; 11; 12; 13; 14; 15; 16; 17; 18; 19; 20; 21; 22;
   23; 24; 25; 26; 27; 28].

(** The day number of a date reads back as that date. *)
Definition roundTrips (y m d : Z) : bool :=
  match JsDate.civil (JsDate.MakeDay y m d) with
  | (y', m', d') => (y' =? y) && (m' =? m) && (d' =? d)
  end.

(** ... for the days 1 to 28 of every month of [n] years from [y] on. *)
Fixpoint yearsRoundTrip (n : nat) (y : Z) : bool :=
  match n with
  | O => true
  | S k =>
      forallb (fun m => forallb (roundTrips y m) dayNumbers) monthNumbers
      && yearsRoundTrip k (y + 1)
  end.

(** ** Further notions *)

(** The character [c] occurs in [s]. *)
Fixpoint occursIn (c : ascii) (s : string) : bool :=
  match s with
  | EmptyString => false
  | String d rest => Ascii.eqb d c || occursIn c rest
  end.

(** A name as [readdir] reports them for a directory of posts: not
    empty, and without a slash. *)
Definition isPlainName (name : string) : bool :=
  JsString.truthy name && negb (occursIn "/"%char name).

(** The non-empty lines of a text. *)
Definition nonEmptyLines (text : string) : list string :=
  List.filter JsString.truthy (JsString.split JsString.LF text).

(** A month from 1 to 12 with a day from 1 to 31. *)
Definition inCalendarRange (m d : Z) : bool :=
  (1 <=? m) && (m <=? 12) && (1 <=? d) && (d <=? 31).

Section TemplateParts.

Variable tz : Z.
Variable clockAtCopyright clockAtBuild : Z.

(** The lines of [rssTemplate] before the placeholder, and after it. *)
Definition headerLines : list string :=
  [ "<?xml version=" +:+ quote +:+ "1.0" +:+ quote
      +:+ " encoding=" +:+ quote +:+ "UTF-8" +:+ quote +:+ " ?>";
    "<rss version=" +:+ quote +:+ "2.0" +:+ quote +:+ ">";
    "<channel>";
    " <title>" +:+ blogTitle +:+ "</title>";
    " <description>" +:+ blogDescription +:+ "</description>";
    " <link>" +:+ githubURLBase +:+ "</link>";
    " <copyright>" +:+ copyrightField tz clockAtCopyright +:+ "</copyright>";
    " <lastBuildDate>" +:+ lastBuildDate clockAtBuild +:+ "</lastBuildDate>";
    " <pubDate>" +:+ lastBuildDate clockAtBuild +:+ "</pubDate>";
    " <ttl>" +:+ JsString.decimal ttl +:+ "</ttl>";
    "" ].

Definition channelHeader : string := unlines headerLines.

Definition channelFooter : string :=
  JsString.newline +:+ unlines [ ""; "</channel>"; "</rss>" ].

End TemplateParts.

(** The replacement text holds the pattern [$`] where [replace] reads
    a pattern: the scan is that of [JsString.substitution]. *)
Fixpoint copiesBefore (replacement : string) : bool :=
  match replacement with
  | EmptyString => false
  | String c rest =>
      if Ascii.eqb c "$"%char then
        match rest with
        | String d rest' =>
            if Ascii.eqb d "$"%char then copiesBefore rest'
            else if Ascii.eqb d "&"%char then copiesBefore rest'
            else if Ascii.eqb d "`"%char then true
            else if Ascii.eqb d "'"%char then copiesBefore rest'
            else copiesBefore rest
        | EmptyString => false
        end
      else copiesBefore rest
  end.

(** The lines of [rssTemplate] before the placeholder, with [year] for
    the year of the copyright line and [stamp] in the [lastBuildDate]
    and [pubDate] elements. *)
Definition headerWith (year stamp : string) : string :=
  unlines
    [ "<?xml version=" +:+ quote +:+ "1.0" +:+ quote
        +:+ " encoding=" +:+ quote +:+ "UTF-8" +:+ quote +:+ " ?>";
      "<rss version=" +:+ quote +:+ "2.0" +:+ quote +:+ ">";
      "<channel>";
      " <title>" +:+ blogTitle +:+ "</title>";
      " <description>" +:+ blogDescription +:+ "</description>";
      " <link>" +:+ githubURLBase +:+ "</link>";
      " <copyright>" +:+ year +:+ " Francis Stokes - All rights reserved</copyright>";
      " <lastBuildDate>" +:+ stamp +:+ "</lastBuildDate>";
      " <pubDate>" +:+ stamp +:+ "</pubDate>";
      " <ttl>" +:+ JsString.decimal ttl +:+ "</ttl>";
      "" ].

(** Every character of [s] is a decimal digit. *)
Fixpoint allDigits (s : string) : bool :=
  match s with
  | EmptyString => true
  | String c rest => JsString.isDigit c && allDigits rest
  end.

(** One or two decimal digits *)
Definition oneOrTwoDigits (s : string) : Prop :=
  allDigits s = true /\ (String.length s = 1%nat \/ String.length s = 2%nat).

(** [path] lies at or below [dir]: it is [dir] followed by something. *)
Definition below (dir path : string) : Prop := exists rest, path = dir +:+ rest.

(** Two file systems name the same things at and below [dir]. *)
Definition agreeBelow (fs fs' : gmap string NodeFs.entry) (dir : string) : Prop :=
  forall path, below dir path -> fs' !! path = fs !! path.

(** ** More sample inputs *)

Module MoreSamples.

Import NodeFs.

(** A post, and a plain file where a month is expected. *)
Definition fsStrayFile : gmap string entry :=
  list_to_map
    [ ("/home/blog/githublog", Dir ["2024"]);
      ("/home/blog/githublog/2024", Dir [".DS_Store"; "3"]);
      ("/home/blog/githublog/2024/.DS_Store", File "Bud1");
      ("/home/blog/githublog/2024/3", Dir ["7"]);
      ("/home/blog/githublog/2024/3/7", Dir ["post.md"]);
      ("/home/blog/githublog/2024/3/7/post.md", File "# Post") ].

End MoreSamples.

(** Reducers that stand for remark on texts without markup. *)

Module Reducers.

(** A reducer that returns a text as it is, closed by a line feed, and
    nothing for an empty text or [undefined]: what remark's serializer
    makes of a paragraph that holds no markup. *)
Definition lineClosing (text : option string) : string :=
  match text with
  | Some (String c rest) => String c rest +:+ JsString.newline
  | _ => EmptyString
  end.



End Reducers.

Module SampleTexts.



End SampleTexts.

Module SampleTrees.

Import NodeFs.

(** A post, and a directory next to it in the directory of the day. *)
Definition fsNestedDir : gmap string entry :=
  list_to_map
    [ ("/home/blog/githublog", Dir ["2024"]);
      ("/home/blog/githublog/2024", Dir ["3"]);
      ("/home/blog/githublog/2024/3", Dir ["7"]);
      ("/home/blog/githublog/2024/3/7", Dir ["post.md"; "images"]);
      ("/home/blog/githublog/2024/3/7/post.md", File "# Post");
      ("/home/blog/githublog/2024/3/7/images", Dir ["figure.png"]);
      ("/home/blog/githublog/2024/3/7/images/figure.png", File "PNG") ].


(** One post, in a file with a dollar sign and a backquote in its
    name. *)
Definition fsBackquoteName : gmap string entry :=
  list_to_map
    [ ("/home/blog/githublog", Dir ["2023"]);
      ("/home/blog/githublog/2023", Dir ["1"]);
      ("/home/blog/githublog/2023/1", Dir ["1"]);
      ("/home/blog/githublog/2023/1/1", Dir ["$`.md"]);
      ("/home/blog/githublog/2023/1/1/$`.md", File "Hello World") ].

End SampleTrees.

Module SampleItems.

(** The item of the post of [SampleTrees.fsBackquoteName], with
    [name] for the name of its file in the link. *)
Definition linkedAs (name : string) : string :=
  generateRSSItem (extractPostInfo Reducers.lineClosing "Hello World")
    ("https://github.com/francisrstokes/githublog/blob/main/2023/1/1/" +:+ name
     +:+ ".md")
    "Sun, 01 Jan 2023 00:00:00 GMT".

End SampleItems.

(** ** Automation *)

(** [H] says that a directory of a sample file system lists a name: one
    case for each name it lists. *)
Ltac listed H :=
  let names := fresh "names" in
  let Hread := fresh "Hread" in
  let Hname := fresh "Hname" in
  destruct H as [names [Hread Hname]];
  vm_compute in Hread; injection Hread as <-;
  simpl in Hname; repeat (destruct Hname as [<-|Hname]); try contradiction.

(** ** The runtime on small inputs *)

Module RuntimeExamples.

Example split_keeps_empty_pieces :
  JsString.split "/"%char "a//b/" = ["a"; ""; "b"; ""].
Proof. reflexivity. Qed.

Example trim_both_ends :
  JsString.trim ("  a b " +:+ JsString.newline) = "a b".
Proof. reflexivity. Qed.

Example replace_first_occurrence :
  JsString.replace "/repo" "https://host" "/repo/2024/repo.md"
  = "https://host/2024/repo.md".
Proof. reflexivity. Qed.

Example replace_substitution_patterns :
  JsString.replace "{x}" "a$$b$&c$1d$" "<{x}>" = "<a$b{x}c$1d$>".
Proof. reflexivity. Qed.

Example yearRegex_this_millennium :
  map JsRegExp.yearRegex ["2024"; "1999"; "20245"; "assets"] = [true; false; false; false].
Proof. reflexivity. Qed.

Example dateExtractionRegex_captures :
  map JsRegExp.dateExtractionRegex
    ["/repo/2024/11/26/post.md"; "/repo/2024/1x/26/post.md"; "2024/11/26/post.md";
     "/repo/2024/11/26"]
  = [Some "2024/11/26"; None; None; Some "2024/11/2"].
Proof. reflexivity. Qed.

Example sort_is_stable :
  JsArray.sort (fun x y => Some (fst x - fst y)) [(3, "a"); (1, "b"); (2, "c"); (1, "d")]
  = [(1, "b"); (1, "d"); (2, "c"); (3, "a")].
Proof. reflexivity. Qed.

Example epoch_is_a_thursday :
  JsDate.toUTCString (Some 0) = "Thu, 01 Jan 1970 00:00:00 GMT".
Proof. vm_compute. reflexivity. Qed.

Example parse_reads_local_midnight :
  JsDate.parse 120 Samples.noOtherFormats "2024/3/7" = Some 1709762400000 /\
  JsDate.parse 0 Samples.noOtherFormats "2024/13/7" = None.
Proof. split; vm_compute; reflexivity. Qed.

Example day_beyond_the_month :
  JsDate.parse 0 Samples.noOtherFormats "2024/2/30"
  = JsDate.parse 0 Samples.noOtherFormats "2024/3/1".
Proof. vm_compute. reflexivity. Qed.

(** Day numbers and calendar dates agree from 2000 to 2099. *)
Example dates_round_trip : yearsRoundTrip 100 2000 = true.
Proof. vm_compute. reflexivity. Qed.

Example join_paths :
  NodeFs.join "/repo" "2024" = "/repo/2024" /\ NodeFs.join "/" "2024" = "/2024".
Proof. split; reflexivity. Qed.

Example reading_the_sample :
  NodeFs.readdir Samples.fsOnePost "/home/blog/githublog"
  = NodeFs.Fulfilled ["assets"; "2023"] /\
  NodeFs.readdir Samples.fsOnePost "/home/blog/githublog/2023/1/1/x.ext"
  = NodeFs.Rejected NodeFs.ENOTDIR /\
  NodeFs.readFile Samples.fsOnePost "/home/blog/githublog/2023"
  = NodeFs.Rejected NodeFs.EISDIR /\
  NodeFs.readFile Samples.fsOnePost "/home/blog/githublog/2025"
  = NodeFs.Rejected NodeFs.ENOENT.
Proof. split; [|split; [|split]]; vm_compute; reflexivity. Qed.

End RuntimeExamples.

(** ** Strings *)

Module JsStringFacts.

Import JsString.

Lemma length_append (s t : string) :
  String.length (s +:+ t) = (String.length s + String.length t)%nat.
Proof. induction s as [|c s IH]; simpl; [reflexivity | now rewrite IH]. Qed.

Lemma append_cons (c : ascii) (s t : string) :
  String c s +:+ t = String c (s +:+ t).
Proof. reflexivity. Qed.

Lemma append_assoc (s t u : string) : (s +:+ t) +:+ u = s +:+ (t +:+ u).
Proof.
  induction s as [|c s IH]; [reflexivity|].
  now rewrite !append_cons, IH.
Qed.






Lemma endsWith_append (s p : string) : endsWith (s +:+ p) p = true.
Proof.
  induction s as [|c s IH]; simpl.
  - destruct p; simpl; rewrite ?String.eqb_refl, ?Ascii.eqb_refl; reflexivity.
  - rewrite IH. apply orb_true_r.
Qed.

Lemma filter_truthy_nil (pieces : list string) :
  (forall piece, In piece pieces -> piece = EmptyString) ->
  List.filter truthy pieces = [].
Proof.
  induction pieces as [|p ps IH]; intros Hall; simpl; [reflexivity|].
  rewrite (Hall p (or_introl eq_refl)); simpl.
  apply IH. intros q Hq. apply Hall. now right.
Qed.

Lemma stripPrefix_append (p s : string) : stripPrefix p (p +:+ s) = Some s.
Proof.
  induction p as [|c p IH]; simpl; [now destruct s|].
  now rewrite Ascii.eqb_refl.
Qed.

Lemma cut_head (p s after : string) :
  stripPrefix p s = Some after -> cut p s = Some (EmptyString, after).
Proof. intros H. destruct s; simpl; now rewrite H. Qed.

Lemma cut_append (p s : string) : cut p (p +:+ s) = Some (EmptyString, s).
Proof. apply cut_head, stripPrefix_append. Qed.

End JsStringFacts.

Section Extractor.

Variable stripMarkdown : option string -> string.

(** C5.  A document with no line that is not empty: the extractor
    returns, and the title is what the reducer makes of [undefined];
    with a reducer that makes nothing of it, the title is empty. *)
Theorem extractPostInfo_no_lines (markdownContents : string) :
  stripMarkdown None = EmptyString ->
  (forall line, In line (JsString.split JsString.LF markdownContents) ->
                line = EmptyString) ->
  title (extractPostInfo stripMarkdown markdownContents) = EmptyString.
Proof.
  intros Hundefined Hlines. unfold extractPostInfo. cbn [title].
  now rewrite (JsStringFacts.filter_truthy_nil _ Hlines).
Qed.

(** C10.  Every description ends with the marker [...], whatever the
    length of the body. *)
Theorem description_ends_with_marker (markdownContents : string) :
  JsString.endsWith (description (extractPostInfo stripMarkdown markdownContents))
                    "..." = true.
Proof. unfold extractPostInfo. cbn [description]. apply JsStringFacts.endsWith_append. Qed.


End Extractor.

(** C4.  The title of the one-line document [Hello World] is the
    reducer's answer for that line as it stands: the description is
    trimmed, the title is not.  With a reducer that closes its answer
    with a line feed the title is [Hello World] and a line feed, and the
    description is the marker alone. *)
Theorem extractPostInfo_hello_world_title_untrimmed :
  (forall stripMarkdown : option string -> string,
      extractPostInfo stripMarkdown "Hello World"
      = {| title := stripMarkdown (Some "Hello World");
           description :=
             JsString.newlinesToSpaces
               (JsString.trim (stripMarkdown (Some EmptyString))) +:+ "..." |}) /\
  extractPostInfo Reducers.lineClosing "Hello World"
  = {| title := "Hello World" +:+ JsString.newline; description := "..." |}.
Proof. split; [intros stripMarkdown|]; reflexivity. Qed.

Lemma extractPostInfo_no_lines_witness :
  title (extractPostInfo Samples.verbatim (JsString.newline +:+ JsString.newline))
  = EmptyString.
Proof.
  apply (extractPostInfo_no_lines Samples.verbatim).
  - reflexivity.
  - simpl. intros line [<-|[<-|[<-|[]]]]; reflexivity.
Defined.

(** ** Arrays: [sort] *)

Module JsArrayFacts.

Import JsArray.

Lemma StronglySorted_snoc {A : Type} (R : A -> A -> Prop) (l : list A) (x : A) :
  StronglySorted R l -> List.Forall (fun y => R y x) l ->
  StronglySorted R (l ++ [x]).
Proof.
  induction 1 as [|a l Hl IH Ha]; intros Hx; simpl.
  - repeat constructor.
  - inversion Hx; subst. constructor; [now apply IH|].
    apply List.Forall_app. split; [assumption | now repeat constructor].
Qed.

Lemma StronglySorted_rev {A : Type} (R : A -> A -> Prop) (l : list A) :
  StronglySorted R l -> StronglySorted (fun x y => R y x) (rev l).
Proof.
  induction 1 as [|a l Hl IH Ha]; simpl; [constructor|].
  apply StronglySorted_snoc; [assumption|].
  apply List.Forall_forall. intros y Hy. apply List.in_rev in Hy.
  now apply (proj1 (List.Forall_forall _ _) Ha).
Qed.

Lemma StronglySorted_back {A : Type} (R : A -> A -> Prop) (front back : list A) (y : A) :
  StronglySorted R (front ++ y :: back) -> List.Forall (R y) back.
Proof.
  induction front as [|a front IH]; simpl; intros H; inversion H; subst; auto.
Qed.

Section Sort.
Context {A : Type}.
Variable comparefn : A -> A -> option Z.

Lemma insertFromRight_perm (x : A) (prefixRev : list A) :
  Permutation (x :: prefixRev) (insertFromRight comparefn x prefixRev).
Proof.
  induction prefixRev as [|y rest IH]; simpl; [reflexivity|].
  destruct (0 <? sortCompare comparefn y x); [|reflexivity].
  rewrite perm_swap. now constructor.
Qed.

Lemma fold_insert_perm (arr prefixRev : list A) :
  Permutation (rev arr ++ prefixRev)
    (fold_left (fun p x => insertFromRight comparefn x p) arr prefixRev).
Proof.
  revert prefixRev. induction arr as [|x arr IH]; intros p; simpl; [reflexivity|].
  rewrite <- IH, <- app_assoc. simpl.
  apply Permutation_app_head, insertFromRight_perm.
Qed.

(** Sorting permutes, whatever the comparator. *)
Lemma sort_perm (arr : list A) : Permutation arr (sort comparefn arr).
Proof.
  unfold sort. rewrite <- Permutation_rev.
  rewrite <- fold_insert_perm, app_nil_r. apply Permutation_rev.
Qed.

(** A comparator that subtracts keys *)
Variable key : A -> Z.
Variable known : A -> Prop.
Hypothesis comparefn_key :
  forall x y, known x -> known y -> sortCompare comparefn x y = key x - key y.

Let descending : A -> A -> Prop := fun y x => key x <= key y.
Let hasKey (k : Z) : A -> bool := fun x => key x =? k.

Lemma insertFromRight_sorted (x : A) (prefixRev : list A) :
  known x -> List.Forall known prefixRev ->
  StronglySorted descending prefixRev ->
  StronglySorted descending (insertFromRight comparefn x prefixRev).
Proof.
  intros Hx Hknown Hsorted.
  induction Hsorted as [|y rest Hrest IH Hy]; simpl; [repeat constructor|].
  inversion Hknown as [|? ? Hky Hkrest]; subst.
  rewrite (comparefn_key y x Hky Hx).
  destruct (0 <? key y - key x) eqn:Hcmp.
  - apply Z.ltb_lt in Hcmp. constructor; [now apply IH|].
    apply List.Forall_forall. intros z Hz.
    apply (Permutation_in z (Permutation_sym (insertFromRight_perm x rest))) in Hz.
    destruct Hz as [<-|Hz]; [unfold descending; lia|].
    now apply (proj1 (List.Forall_forall _ _) Hy).
  - apply Z.ltb_ge in Hcmp. constructor; [now constructor|].
    constructor; [unfold descending; lia|].
    apply List.Forall_forall. intros z Hz.
    pose proof (proj1 (List.Forall_forall _ _) Hy z Hz) as Hzy.
    unfold descending in *. lia.
Qed.

Lemma insertFromRight_stable (k : Z) (x : A) (prefixRev : list A) :
  known x -> List.Forall known prefixRev ->
  List.filter (hasKey k) (rev (insertFromRight comparefn x prefixRev))
  = List.filter (hasKey k) (rev prefixRev) ++ List.filter (hasKey k) [x].
Proof.
  intros Hx Hknown.
  induction prefixRev as [|y rest IH]; simpl; [reflexivity|].
  inversion Hknown as [|? ? Hky Hkrest]; subst.
  rewrite (comparefn_key y x Hky Hx).
  destruct (0 <? key y - key x) eqn:Hcmp.
  - apply Z.ltb_lt in Hcmp. cbn [rev].
    rewrite !List.filter_app, (IH Hkrest), <- !app_assoc. f_equal.
    cbn [List.filter app]. unfold hasKey.
    destruct (key x =? k) eqn:Ex, (key y =? k) eqn:Ey; try reflexivity.
    apply Z.eqb_eq in Ex, Ey. lia.
  - cbn [rev]. now rewrite !List.filter_app.
Qed.

Lemma fold_insert_invariant (arr prefixRev : list A) :
  List.Forall known arr -> List.Forall known prefixRev ->
  StronglySorted descending prefixRev ->
  let out := fold_left (fun p x => insertFromRight comparefn x p) arr prefixRev in
  StronglySorted descending out /\
  forall k, List.filter (hasKey k) (rev out)
            = List.filter (hasKey k) (rev prefixRev) ++ List.filter (hasKey k) arr.
Proof.
  revert prefixRev.
  induction arr as [|x arr IH]; intros p Harr Hp Hsorted; simpl.
  - split; [assumption|]. intros k. now rewrite app_nil_r.
  - inversion Harr as [|? ? Hx Harr']; subst.
    assert (Hp' : List.Forall known (insertFromRight comparefn x p)).
    { apply List.Forall_forall. intros z Hz.
      apply (Permutation_in z (Permutation_sym (insertFromRight_perm x p))) in Hz.
      destruct Hz as [<-|Hz]; [assumption|].
      now apply (proj1 (List.Forall_forall _ _) Hp). }
    destruct (IH _ Harr' Hp' (insertFromRight_sorted x p Hx Hp Hsorted))
      as [Hs Hst].
    split; [exact Hs|]. intros k.
    rewrite (Hst k), (insertFromRight_stable k x p Hx Hp), <- app_assoc.
    cbn [List.filter app]. now destruct (hasKey k x).
Qed.

(** With such a comparator the result is in ascending order of the
    keys, and elements of one key keep the order they came in. *)
Lemma sort_by_key (arr : list A) :
  List.Forall known arr ->
  StronglySorted (fun x y => key x <= key y) (sort comparefn arr) /\
  forall k, List.filter (hasKey k) (sort comparefn arr) = List.filter (hasKey k) arr.
Proof.
  intros Harr.
  destruct (fold_insert_invariant arr [] Harr (List.Forall_nil _)
              (SSorted_nil _)) as [Hs Hst].
  split.
  - unfold sort. exact (StronglySorted_rev _ _ Hs).
  - intros k. unfold sort. now rewrite (Hst k).
Qed.

(** In a sorted array an element stands before every element of a
    greater key. *)
Lemma sorted_strictlyBefore (arr : list A) (a b : A) :
  StronglySorted (fun x y => key x <= key y) arr ->
  In a arr -> key a < key b -> strictlyBefore a b arr.
Proof.
  intros Hsorted Ha Hlt front back ->.
  pose proof (StronglySorted_back _ _ _ _ Hsorted) as Hback.
  assert (Hnot : ~ In a back).
  { intros Hin.
    pose proof (proj1 (List.Forall_forall _ _) Hback a Hin) as Hle.
    cbv beta in Hle. lia. }
  split; [|exact Hnot].
  apply List.in_app_or in Ha. destruct Ha as [Ha|[Ha|Ha]]; [assumption| |tauto].
  subst. lia.
Qed.

End Sort.

End JsArrayFacts.

(** ** Ordering the posts *)

Section Ordering.

Variable tz : Z.
Variable otherFormats : string -> option Z.

Let key (blog : string) : Z :=
  match resolvedDate tz otherFormats blog with
  | Some t => t
  | None => 0
  end.

Lemma compareBlogs_dated (a b : string) :
  resolvedDate tz otherFormats a <> None ->
  resolvedDate tz otherFormats b <> None ->
  JsArray.sortCompare (compareBlogs tz otherFormats) a b = key a - key b.
Proof.
  unfold JsArray.sortCompare, compareBlogs, key, resolvedDate.
  destruct (matchedDate tz otherFormats a) as [[ta|]|],
           (matchedDate tz otherFormats b) as [[tb|]|];
    simpl; congruence.
Qed.

Lemma datedAt_key (t : Z) (blog : string) :
  resolvedDate tz otherFormats blog <> None ->
  datedAt tz otherFormats t blog = (key blog =? t).
Proof.
  unfold datedAt, key.
  destruct (resolvedDate tz otherFormats blog); congruence.
Qed.

(** C1, as the program has it.  When every scanned path has a date the
    ordering step resolves, the sorted array holds the same paths, a
    path of an earlier date stands before every path of a later date,
    and the paths of one date keep their scan order. *)
Theorem sortBlogs_ascending_when_all_dated (allBlogs : list string) :
  (forall blog, In blog allBlogs -> resolvedDate tz otherFormats blog <> None) ->
  Permutation allBlogs (sortBlogs tz otherFormats allBlogs) /\
  (forall a b ta tb,
      In a allBlogs -> In b allBlogs ->
      resolvedDate tz otherFormats a = Some ta ->
      resolvedDate tz otherFormats b = Some tb ->
      ta < tb ->
      strictlyBefore a b (sortBlogs tz otherFormats allBlogs)) /\
  (forall t,
      List.filter (datedAt tz otherFormats t) (sortBlogs tz otherFormats allBlogs)
      = List.filter (datedAt tz otherFormats t) allBlogs).
Proof.
  intros Hdated.
  pose proof (JsArrayFacts.sort_perm (compareBlogs tz otherFormats) allBlogs) as Hperm.
  destruct (JsArrayFacts.sort_by_key (compareBlogs tz otherFormats) key
              (fun blog => resolvedDate tz otherFormats blog <> None)
              compareBlogs_dated allBlogs
              (proj2 (List.Forall_forall _ _) Hdated)) as [Hsorted Hstable].
  fold (sortBlogs tz otherFormats allBlogs) in Hperm, Hsorted, Hstable.
  split; [exact Hperm|]. split.
  - intros a b ta tb Ha Hb Hta Htb Hlt.
    apply (JsArrayFacts.sorted_strictlyBefore key _ a b Hsorted).
    + exact (Permutation_in a Hperm Ha).
    + unfold key. rewrite Hta, Htb. exact Hlt.
  - intros t.
    rewrite (List.filter_ext_in (datedAt tz otherFormats t) (fun x => key x =? t)
               (sortBlogs tz otherFormats allBlogs)).
    + rewrite (Hstable t). symmetry. apply List.filter_ext_in.
      intros blog Hin. apply datedAt_key, Hdated, Hin.
    + intros blog Hin. apply datedAt_key, Hdated.
      exact (Permutation_in blog (Permutation_sym Hperm) Hin).
Qed.

End Ordering.

Lemma sortBlogs_ascending_when_all_dated_witness :
  let allBlogs := [ "/home/blog/githublog/2024/11/26/getting-an-ip-address.md";
                    "/home/blog/githublog/2024/5/10/cordic.md";
                    "/home/blog/githublog/2022/6/15/rolling-your-own-crypto-aes.md" ] in
  strictlyBefore "/home/blog/githublog/2024/5/10/cordic.md"
                 "/home/blog/githublog/2024/11/26/getting-an-ip-address.md"
                 (sortBlogs 0 Samples.noOtherFormats allBlogs).
Proof.
  intros allBlogs.
  assert (Hdated : forall blog, In blog allBlogs ->
                                resolvedDate 0 Samples.noOtherFormats blog <> None).
  { intros blog [<-|[<-|[<-|[]]]]; vm_compute; discriminate. }
  destruct (sortBlogs_ascending_when_all_dated 0 Samples.noOtherFormats allBlogs Hdated)
    as [_ [Hbefore _]].
  apply (Hbefore _ _ 1715299200000 1732579200000).
  - simpl; tauto.
  - simpl; tauto.
  - vm_compute; reflexivity.
  - vm_compute; reflexivity.
  - lia.
Defined.

(** C1, as the specification has it, fails: a path without a date
    compares equal to every other path, so two dated posts on either
    side of it are never compared and stay in scan order. *)
Lemma sortBlogs_stray_month_counterexample :
  let late := "/home/blog/githublog/2024/11/1/late.md" in
  let draft := "/home/blog/githublog/2024/1x/1/draft.md" in
  let early := "/home/blog/githublog/2024/3/1/early.md" in
  findAllBlogs Samples.repo Samples.fsStrayMonth = NodeFs.Fulfilled [late; draft; early] /\
  resolvedDate 0 Samples.noOtherFormats early = Some 1709251200000 /\
  resolvedDate 0 Samples.noOtherFormats late = Some 1730419200000 /\
  resolvedDate 0 Samples.noOtherFormats draft = None /\
  sortBlogs 0 Samples.noOtherFormats [late; draft; early] = [late; draft; early] /\
  ~ strictlyBefore early late (sortBlogs 0 Samples.noOtherFormats [late; draft; early]).
Proof.
  intros late draft early.
  split; [vm_compute; reflexivity|].
  split; [vm_compute; reflexivity|].
  split; [vm_compute; reflexivity|].
  split; [vm_compute; reflexivity|].
  split; [vm_compute; reflexivity|].
  intros Hbefore.
  destruct (Hbefore [] [draft; early] eq_refl) as [Hfront _].
  exact Hfront.
Qed.

(** ** Promises *)

Module NodeFsFacts.

Import NodeFs.

Lemma all_rejected {A : Type} (ps : list (promise A)) (p : promise A) :
  In p ps -> isFulfilled p = false -> exists e, all ps = Rejected e.
Proof.
  induction ps as [|q ps IH]; intros Hin Hp; [contradiction|].
  simpl. destruct q as [a|e]; simpl; [|eauto].
  destruct Hin as [<-|Hin]; [discriminate|].
  destruct (IH Hin Hp) as [e ->]. simpl. eauto.
Qed.

Lemma all_fulfilled {A B : Type} (f : A -> promise B) (xs : list A) :
  (forall x, In x xs -> isFulfilled (f x) = true) ->
  exists values,
    all (map f xs) = Fulfilled values /\
    List.Forall2 (fun x v => f x = Fulfilled v) xs values.
Proof.
  induction xs as [|x xs IH]; intros Hall; simpl.
  - exists []. split; [reflexivity | constructor].
  - destruct (IH (fun y Hy => Hall y (or_intror Hy))) as [vs [Hvs Hrel]].
    pose proof (Hall x (or_introl eq_refl)) as Hx.
    destruct (f x) as [v|e] eqn:Efx; [|discriminate].
    exists (v :: vs). simpl. rewrite Hvs. simpl.
    split; [reflexivity | now constructor].
Qed.

Lemma all_fulfilled_inv {A B : Type} (f : A -> promise B) (xs : list A)
    (values : list B) :
  all (map f xs) = Fulfilled values ->
  List.Forall2 (fun x v => f x = Fulfilled v) xs values.
Proof.
  revert values. induction xs as [|x xs IH]; intros values Hall; simpl in Hall.
  - injection Hall as <-. constructor.
  - destruct (f x) as [v|e] eqn:Efx; [|discriminate]. cbn [andThen] in Hall.
    destruct (all (map f xs)) as [vs|e]; [|discriminate]. cbn [andThen] in Hall.
    injection Hall as <-. constructor; [exact Efx | now apply IH].
Qed.

End NodeFsFacts.

(** ** The run as a whole *)

Section Run.

Import NodeFs.

Variable repoDir : string.
Variable tz : Z.
Variable otherFormats : string -> option Z.
Variable stripMarkdown : option string -> string.

Lemma readPosts_rejected (fs : gmap string entry) (blogs : list string) (blog : string) :
  In blog blogs -> isFulfilled (readFile fs blog) = false ->
  exists e, readPosts stripMarkdown fs blogs = Rejected e.
Proof.
  intros Hin Hread. unfold readPosts.
  apply (NodeFsFacts.all_rejected _
           (andThen (readFile fs blog)
              (fun text => Fulfilled (extractPostInfo stripMarkdown text)))).
  - apply (List.in_map (fun b => andThen (readFile fs b) _)), Hin.
  - destruct (readFile fs blog); [discriminate | reflexivity].
Qed.

Lemma rssItems_rendersAs (fs : gmap string entry) (blogs : list string)
    (posts : list PostInfo) :
  List.Forall2
    (fun blog post => andThen (readFile fs blog)
                        (fun text => Fulfilled (extractPostInfo stripMarkdown text))
                      = Fulfilled post) blogs posts ->
  List.Forall2 (rendersAs repoDir tz otherFormats stripMarkdown fs) blogs
    (rssItems posts (map (url repoDir) blogs)
       (map (pubDate repoDir tz otherFormats) blogs)).
Proof.
  induction 1 as [|blog post blogs posts Hpost Hrest IH]; simpl; constructor.
  - destruct (readFile fs blog) as [text|e] eqn:Eread; [|discriminate].
    cbn [andThen] in Hpost. injection Hpost as <-. exists text. auto.
  - exact IH.
Qed.

(** The feed holds one item for each scanned path, in the order of the
    sorted array. *)
Lemma buildFeed_renders_sorted (clockAtCopyright clockAtBuild : Z)
    (fs : gmap string entry) (feed : string) :
  buildFeed repoDir tz otherFormats clockAtCopyright clockAtBuild stripMarkdown fs
  = Fulfilled feed ->
  exists scanned items,
    findAllBlogs repoDir fs = Fulfilled scanned /\
    List.Forall2 (rendersAs repoDir tz otherFormats stripMarkdown fs)
      (sortBlogs tz otherFormats scanned) items /\
    feed = rssFeed tz clockAtCopyright clockAtBuild items.
Proof.
  unfold buildFeed. intros Hbuild.
  destruct (findAllBlogs repoDir fs) as [scanned|e]; [|discriminate].
  cbn [andThen] in Hbuild.
  destruct (readPosts stripMarkdown fs (sortBlogs tz otherFormats scanned))
    as [posts|e] eqn:Eposts; [|discriminate].
  cbn [andThen] in Hbuild. injection Hbuild as <-.
  exists scanned. eexists. split; [reflexivity|]. split; [|reflexivity].
  apply rssItems_rendersAs, NodeFsFacts.all_fulfilled_inv, Eposts.
Qed.

(** C3, as the program has it.  When a scanned post cannot be read the
    whole run is rejected: nothing is written, whatever the clock and
    the volume, and the file system is as it was. *)
Theorem main_rejected_by_unreadable_post
    (clockAtCopyright clockAtBuild : Z) (room : option nat)
    (fs : gmap string entry) (scanned : list string) (blog : string) :
  findAllBlogs repoDir fs = Fulfilled scanned ->
  In blog scanned ->
  isFulfilled (readFile fs blog) = false ->
  exists e,
    main repoDir tz otherFormats clockAtCopyright clockAtBuild stripMarkdown room fs
    = (Rejected e, fs).
Proof.
  intros Hscan Hin Hread. unfold main, buildFeed. rewrite Hscan. cbn [andThen].
  destruct (readPosts_rejected fs (sortBlogs tz otherFormats scanned) blog) as [e He].
  - exact (Permutation_in blog (JsArrayFacts.sort_perm _ scanned) Hin).
  - exact Hread.
  - rewrite He. cbn [andThen]. now exists e.
Qed.

(** C6, as the program has it.  A run that is fulfilled leaves exactly
    the feed at the output path.  A run that is rejected leaves the
    file system as it was, or, when the write stopped short, the
    beginning of the new feed at the output path. *)
Theorem main_writes_in_place
    (clockAtCopyright clockAtBuild : Z) (room : option nat) (fs : gmap string entry) :
  let build :=
    buildFeed repoDir tz otherFormats clockAtCopyright clockAtBuild stripMarkdown fs in
  match main repoDir tz otherFormats clockAtCopyright clockAtBuild stripMarkdown room fs with
  | (Fulfilled _, fs') =>
      exists feed,
        build = Fulfilled feed /\ fs' !! feedPath repoDir = Some (File feed)
  | (Rejected _, fs') =>
      fs' = fs \/
      exists feed k,
        build = Fulfilled feed /\ (k < String.length feed)%nat /\
        fs' !! feedPath repoDir = Some (File (JsString.take k feed))
  end.
Proof.
  intros build. unfold main. fold build.
  destruct build as [feed|e]; [|now left].
  unfold writeFile.
  destruct (openForWriting fs (feedPath repoDir)) as [opened|e]; [|now left].
  destruct room as [k|].
  - destruct (k <? String.length feed)%nat eqn:Hk.
    + right. exists feed, k. apply Nat.ltb_lt in Hk.
      repeat split; [assumption|]. apply lookup_insert_eq.
    + exists feed. split; [reflexivity|]. apply lookup_insert_eq.
  - exists feed. split; [reflexivity|]. apply lookup_insert_eq.
Qed.

End Run.

Lemma main_rejected_by_unreadable_post_witness :
  exists e,
    main Samples.repo 0 Samples.noOtherFormats 0 0 Samples.verbatim None
         Samples.fsLockedPost
    = (NodeFs.Rejected e, Samples.fsLockedPost).
Proof.
  apply (main_rejected_by_unreadable_post Samples.repo 0 Samples.noOtherFormats
           Samples.verbatim 0 0 None Samples.fsLockedPost
           [ "/home/blog/githublog/2024/3/7/open.md";
             "/home/blog/githublog/2024/3/7/locked.md" ]
           "/home/blog/githublog/2024/3/7/locked.md").
  - vm_compute; reflexivity.
  - simpl; tauto.
  - vm_compute; reflexivity.
Defined.

(** C3, as the specification has it, fails: with one post that cannot be
    read next to one that can, the run is rejected and no feed exists
    afterwards. *)
Lemma main_locked_post_counterexample :
  let run := main Samples.repo 0 Samples.noOtherFormats 0 0 Samples.verbatim None
                  Samples.fsLockedPost in
  NodeFs.readFile Samples.fsLockedPost "/home/blog/githublog/2024/3/7/open.md"
  = NodeFs.Fulfilled "# Open" /\
  NodeFs.readFile Samples.fsLockedPost "/home/blog/githublog/2024/3/7/locked.md"
  = NodeFs.Rejected NodeFs.EACCES /\
  fst run = NodeFs.Rejected NodeFs.EACCES /\
  snd run !! feedPath Samples.repo = None.
Proof.
  intros run. split; [|split; [|split]]; vm_compute; reflexivity.
Qed.

(** C6, as the specification has it, fails: a write that stops after 14
    characters leaves these 14 characters where the feed of the last run
    was. *)
Lemma main_short_write_counterexample :
  let run := main Samples.repo 0 Samples.noOtherFormats 0 0 Samples.verbatim
                  (Some 14%nat) Samples.fsStaleFeed in
  Samples.fsStaleFeed !! feedPath Samples.repo
  = Some (NodeFs.File "<rss>the feed of the last run</rss>") /\
  fst run = NodeFs.Rejected NodeFs.ENOSPC /\
  snd run !! feedPath Samples.repo = Some (NodeFs.File "<?xml version=").
Proof.
  intros run. split; [|split]; vm_compute; reflexivity.
Qed.

(** C9, as the specification has it, fails: two runs on one file system,
    two seconds apart across the turn of the year, differ outside the
    [lastBuildDate] element, in the copyright year and in the [pubDate]
    of the channel.  And with the pattern [$`] in the name of a post,
    the header of each run, with its clock, stands in the link of the
    item. *)
Lemma main_two_runs_counterexample :
  (exists feed1 feed2,
    buildFeed Samples.repo 0 Samples.noOtherFormats
              Samples.lastSecondOf2023 Samples.lastSecondOf2023
              Samples.verbatim Samples.fsOnePost = NodeFs.Fulfilled feed1 /\
    buildFeed Samples.repo 0 Samples.noOtherFormats
              Samples.secondSecondOf2024 Samples.secondSecondOf2024
              Samples.verbatim Samples.fsOnePost = NodeFs.Fulfilled feed2 /\
    copyrightField 0 Samples.lastSecondOf2023 = "2023 Francis Stokes - All rights reserved" /\
    copyrightField 0 Samples.secondSecondOf2024 = "2024 Francis Stokes - All rights reserved" /\
    String.eqb (withoutBuildTimestamp feed1) (withoutBuildTimestamp feed2) = false) /\
  buildFeed Samples.repo 0 Samples.noOtherFormats
            Samples.lastSecondOf2023 Samples.lastSecondOf2023
            Reducers.lineClosing SampleTrees.fsBackquoteName
  = NodeFs.Fulfilled
      (channelHeader 0 Samples.lastSecondOf2023 Samples.lastSecondOf2023
       +:+ SampleItems.linkedAs
             (channelHeader 0 Samples.lastSecondOf2023 Samples.lastSecondOf2023)
       +:+ channelFooter) /\
  buildFeed Samples.repo 0 Samples.noOtherFormats
            Samples.secondSecondOf2024 Samples.secondSecondOf2024
            Reducers.lineClosing SampleTrees.fsBackquoteName
  = NodeFs.Fulfilled
      (channelHeader 0 Samples.secondSecondOf2024 Samples.secondSecondOf2024
       +:+ SampleItems.linkedAs
             (channelHeader 0 Samples.secondSecondOf2024 Samples.secondSecondOf2024)
       +:+ channelFooter).
Proof.
  split.
  - eexists. eexists.
    split; [vm_compute; reflexivity|].
    split; [vm_compute; reflexivity|].
    split; [vm_compute; reflexivity|].
    split; vm_compute; reflexivity.
  - split; vm_compute; reflexivity.
Qed.

(** ** The publication date *)

Module JsDateFacts.

Import JsDate.

Lemma Day_within (day offset : Z) :
  0 <= offset < msPerDay -> Day (MakeDate day 0 + offset) = day.
Proof.
  intros Hoffset. unfold Day, MakeDate. symmetry.
  apply (Z.div_unique _ _ _ offset); [left; exact Hoffset | lia].
Qed.

Lemma utcDateText_of_day (t : Z) :
  Day t = MakeDay 2024 3 7 -> utcDateText t = "Thu, 07 Mar 2024".
Proof.
  intros Hday.
  unfold utcDateText, WeekDay, DateFromTime, MonthFromTime, YearFromTime.
  rewrite Hday. vm_compute. reflexivity.
Qed.

End JsDateFacts.

Section PublicationDate.

Import NodeFs.

Variable repoDir : string.
Variable tz : Z.
Variable otherFormats : string -> option Z.

Lemma eqb_length (s p : string) :
  String.eqb s p = true -> String.length s = String.length p.
Proof. intros H. apply String.eqb_eq in H. now subst. Qed.

Lemma endsWith_append_short (s t p : string) :
  (String.length p <= String.length t)%nat ->
  JsString.endsWith (s +:+ t) p = JsString.endsWith t p.
Proof.
  intros Hshort. induction s as [|c s IH]; [reflexivity|].
  change (JsString.endsWith (String c s +:+ t) p)
    with (String.eqb (String c (s +:+ t)) p || JsString.endsWith (s +:+ t) p).
  rewrite IH.
  destruct (String.eqb (String c (s +:+ t)) p) eqn:E; [|reflexivity].
  apply eqb_length in E. cbn [String.length] in E.
  rewrite JsStringFacts.length_append in E. lia.
Qed.

Lemma join_plain (dir name : string) :
  JsString.endsWith dir "/" = false -> join dir name = dir +:+ "/" +:+ name.
Proof. intros H. unfold join. now rewrite H. Qed.

Lemma blog_path :
  JsString.endsWith repoDir "/" = false ->
  join (join (join (join repoDir "2024") "3") "7") "post.ext"
  = (repoDir +:+ "/") +:+ "2024/3/7/post.ext".
Proof.
  intros Hroot.
  rewrite (join_plain repoDir "2024" Hroot).
  rewrite (join_plain (repoDir +:+ "/" +:+ "2024") "3")
    by (rewrite endsWith_append_short; [reflexivity | simpl; lia]).
  rewrite (join_plain ((repoDir +:+ "/" +:+ "2024") +:+ "/" +:+ "3") "7")
    by (rewrite endsWith_append_short; [reflexivity | simpl; lia]).
  rewrite join_plain
    by (rewrite endsWith_append_short; [reflexivity | simpl; lia]).
  rewrite !JsStringFacts.append_assoc. reflexivity.
Qed.

(** C8, as the program has it.  For the post [2024/3/7/post.ext] of a
    repository that is not the root of the file system, the date text
    is [2024/3/7], read as midnight of 7 March 2024 in local time; on
    a host at UTC or behind it the publication timestamp shows that
    day. *)
Theorem pubDate_2024_3_7 :
  JsString.endsWith repoDir "/" = false ->
  -1440 < tz <= 0 ->
  let blog := join (join (join (join repoDir "2024") "3") "7") "post.ext" in
  extractedDate repoDir blog = "2024/3/7" /\
  JsDate.parse tz otherFormats "2024/3/7"
  = Some (JsDate.UTC tz (JsDate.MakeDate (JsDate.MakeDay 2024 3 7) 0)) /\
  JsDate.civil (JsDate.MakeDay 2024 3 7) = (2024, 3, 7) /\
  exists time,
    pubDate repoDir tz otherFormats blog = "Thu, 07 Mar 2024 " +:+ time +:+ " GMT".
Proof.
  intros Hroot Htz blog.
  assert (Hdate : extractedDate repoDir blog = "2024/3/7").
  { unfold blog, extractedDate, JsString.replace.
    rewrite (blog_path Hroot), JsStringFacts.cut_append. reflexivity. }
  assert (Hparse : JsDate.parse tz otherFormats "2024/3/7"
                   = Some (JsDate.UTC tz (JsDate.MakeDate (JsDate.MakeDay 2024 3 7) 0)))
    by reflexivity.
  split; [exact Hdate|]. split; [exact Hparse|]. split; [reflexivity|].
  unfold pubDate. rewrite Hdate, Hparse. unfold JsDate.toUTCString.
  rewrite JsDateFacts.utcDateText_of_day.
  - eexists. reflexivity.
  - unfold JsDate.UTC.
    replace (JsDate.MakeDate (JsDate.MakeDay 2024 3 7) 0 - tz * JsDate.msPerMinute)
      with (JsDate.MakeDate (JsDate.MakeDay 2024 3 7) 0 + (- tz * JsDate.msPerMinute))
      by lia.
    apply JsDateFacts.Day_within. unfold JsDate.msPerMinute, JsDate.msPerDay. lia.
Qed.

End PublicationDate.

Lemma pubDate_2024_3_7_witness :
  exists time,
    pubDate Samples.repo (-300) Samples.noOtherFormats
            "/home/blog/githublog/2024/3/7/post.ext"
    = "Thu, 07 Mar 2024 " +:+ time +:+ " GMT".
Proof.
  apply (pubDate_2024_3_7 Samples.repo (-300) Samples.noOtherFormats);
    [reflexivity | lia].
Defined.

(** C8, as the specification has it, fails: on a host one hour ahead of
    UTC the timestamp of the post shows the evening before. *)
Lemma pubDate_ahead_of_utc_counterexample :
  let blog := "/home/blog/githublog/2024/3/7/post.ext" in
  extractedDate Samples.repo blog = "2024/3/7" /\
  pubDate Samples.repo 60 Samples.noOtherFormats blog = "Wed, 06 Mar 2024 23:00:00 GMT".
Proof. split; vm_compute; reflexivity. Qed.

(** ** The scan *)

Section Scan.

Import NodeFs.

Variable repoDir : string.
Variable fs : gmap string entry.

Lemma Forall2_In_l {A B : Type} (R : A -> B -> Prop) (xs : list A) (ys : list B) (x : A) :
  List.Forall2 R xs ys -> In x xs -> exists y, In y ys /\ R x y.
Proof.
  induction 1 as [|a b xs ys Hab Hrest IH]; intros Hin; [contradiction|].
  destruct Hin as [<-|Hin].
  - exists b. split; [now left | assumption].
  - destruct (IH Hin) as [y [Hy Hxy]]. exists y. split; [now right | assumption].
Qed.

Lemma Forall2_In_r {A B : Type} (R : A -> B -> Prop) (xs : list A) (ys : list B) (y : B) :
  List.Forall2 R xs ys -> In y ys -> exists x, In x xs /\ R x y.
Proof.
  induction 1 as [|a b xs ys Hab Hrest IH]; intros Hin; [contradiction|].
  destruct Hin as [<-|Hin].
  - exists a. split; [now left | assumption].
  - destruct (IH Hin) as [x [Hx Hxy]]. exists x. split; [now right | assumption].
Qed.

(** Promises awaited together and flattened: all of the values, and
    nothing else. *)
Lemma all_concat {A B : Type} (f : A -> promise (list B)) (xs : list A) :
  (forall x, In x xs -> isFulfilled (f x) = true) ->
  exists out,
    andThen (all (map f xs)) (fun nested => Fulfilled (concat nested)) = Fulfilled out /\
    forall b, In b out <-> exists x bs, In x xs /\ f x = Fulfilled bs /\ In b bs.
Proof.
  intros Hall.
  destruct (NodeFsFacts.all_fulfilled f xs Hall) as [values [Hvalues Hrel]].
  exists (concat values). rewrite Hvalues. split; [reflexivity|].
  intros b. rewrite List.in_concat. split.
  - intros [bs [Hbs Hb]].
    destruct (Forall2_In_r _ _ _ _ Hrel Hbs) as [x [Hx Hfx]].
    exists x, bs. auto.
  - intros [x [bs [Hx [Hfx Hb]]]].
    destruct (Forall2_In_l _ _ _ _ Hrel Hx) as [bs' [Hbs' Hfx']].
    rewrite Hfx in Hfx'. injection Hfx' as <-.
    exists bs. auto.
Qed.

Lemma listable_lists (dir : string) :
  listable fs dir -> exists names, readdir fs dir = Fulfilled names.
Proof.
  unfold listable. destruct (readdir fs dir) as [names|e]; [eauto | discriminate].
Qed.

Lemma listAll_spec (dirs : list string) :
  (forall dir, In dir dirs -> listable fs dir) ->
  exists out,
    listAll fs dirs = Fulfilled out /\
    forall path, In path out <->
                 exists dir name, In dir dirs /\ lists fs dir name /\ path = join dir name.
Proof.
  intros Hdirs. unfold listAll.
  destruct (all_concat
              (fun dir => andThen (readdir fs dir)
                            (fun names => Fulfilled (map (join dir) names)))
              dirs) as [out [Hout Hin]].
  - intros dir Hdir. destruct (listable_lists dir (Hdirs dir Hdir)) as [names ->].
    reflexivity.
  - exists out. split; [exact Hout|]. intros path. rewrite Hin. split.
    + intros [dir [paths [Hdir [Hread Hpath]]]].
      destruct (readdir fs dir) as [names|e] eqn:Enames; [|discriminate].
      cbn [andThen] in Hread. injection Hread as <-.
      apply List.in_map_iff in Hpath. destruct Hpath as [name [<- Hname]].
      exists dir, name. repeat split; [assumption|]. exists names. auto.
    + intros [dir [name [Hdir [[names [Hread Hname]] ->]]]].
      exists dir, (map (join dir) names). rewrite Hread.
      repeat split; [assumption|]. now apply List.in_map.
Qed.

Lemma findBlogsInYearDir_spec (yearDir : string) :
  listable fs yearDir ->
  (forall month, lists fs yearDir month -> listable fs (join yearDir month)) ->
  (forall month day,
      lists fs yearDir month -> lists fs (join yearDir month) day ->
      listable fs (join (join yearDir month) day)) ->
  exists blogs,
    findBlogsInYearDir fs yearDir = Fulfilled blogs /\
    forall path, In path blogs <->
                 exists month day name,
                   lists fs yearDir month /\
                   lists fs (join yearDir month) day /\
                   lists fs (join (join yearDir month) day) name /\
                   path = join (join (join yearDir month) day) name.
Proof.
  intros Hyear Hmonths Hdays. unfold findBlogsInYearDir.
  destruct (listable_lists yearDir Hyear) as [monthDirs HmonthDirs].
  rewrite HmonthDirs. cbn [andThen].
  destruct (listAll_spec (map (join yearDir) monthDirs)) as [dayDirs [HdayDirs HinDay]].
  { intros dir Hdir. apply List.in_map_iff in Hdir. destruct Hdir as [month [<- Hmonth]].
    apply Hmonths. exists monthDirs. auto. }
  rewrite HdayDirs. cbn [andThen].
  destruct (listAll_spec dayDirs) as [blogs [Hblogs HinBlog]].
  { intros dir Hdir. apply HinDay in Hdir.
    destruct Hdir as [monthDir [day [HmonthDir [Hday ->]]]].
    apply List.in_map_iff in HmonthDir. destruct HmonthDir as [month [<- Hmonth]].
    apply Hdays; [exists monthDirs; auto | exact Hday]. }
  exists blogs. split; [exact Hblogs|]. intros path. rewrite HinBlog. split.
  - intros [dayDir [name [HdayDir [Hname ->]]]].
    apply HinDay in HdayDir. destruct HdayDir as [monthDir [day [HmonthDir [Hday ->]]]].
    apply List.in_map_iff in HmonthDir. destruct HmonthDir as [month [<- Hmonth]].
    exists month, day, name. repeat split; try assumption. exists monthDirs. auto.
  - intros [month [day [name [[names [Hread Hmonth]] [Hday [Hname ->]]]]]].
    exists (join (join yearDir month) day), name. repeat split; [|assumption].
    apply HinDay. exists (join yearDir month), day. repeat split; [|assumption].
    rewrite HmonthDirs in Hread. injection Hread as <-. now apply List.in_map.
Qed.

(** C7, as the program has it.  With a root that can be listed, and
    directories at the year,
    month and day levels below the names that match the year pattern,
    the scan is fulfilled with exactly the paths
    [<repo>/<year>/<month>/<day>/<name>] the directories list; the
    other names of the root are not looked at. *)
Theorem findAllBlogs_exactly_under_date_dirs :
  listable fs repoDir ->
  (forall year,
      lists fs repoDir year -> JsRegExp.yearRegex year = true ->
      listable fs (join repoDir year)) ->
  (forall year month,
      lists fs repoDir year -> JsRegExp.yearRegex year = true ->
      lists fs (join repoDir year) month ->
      listable fs (join (join repoDir year) month)) ->
  (forall year month day,
      lists fs repoDir year -> JsRegExp.yearRegex year = true ->
      lists fs (join repoDir year) month ->
      lists fs (join (join repoDir year) month) day ->
      listable fs (join (join (join repoDir year) month) day)) ->
  exists blogs,
    findAllBlogs repoDir fs = Fulfilled blogs /\
    forall path, In path blogs <-> underDateDirs repoDir fs path.
Proof.
  intros Hroot Hyears Hmonths Hdays. unfold findAllBlogs.
  destruct (listable_lists repoDir Hroot) as [results Hresults].
  rewrite Hresults. cbn [andThen].
  assert (Hyear : forall yearDir,
             In yearDir (map (join repoDir) (List.filter JsRegExp.yearRegex results)) ->
             exists year, yearDir = join repoDir year /\ lists fs repoDir year /\
                          JsRegExp.yearRegex year = true).
  { intros yearDir Hin. apply List.in_map_iff in Hin. destruct Hin as [year [<- Hin]].
    apply List.filter_In in Hin. destruct Hin as [Hin Hmatch].
    exists year. repeat split; [|assumption]. exists results. auto. }
  destruct (all_concat (findBlogsInYearDir fs)
              (map (join repoDir) (List.filter JsRegExp.yearRegex results)))
    as [blogs [Hblogs Hin]].
  { intros yearDir HyearDir. destruct (Hyear yearDir HyearDir) as [year [-> [Hl Hm]]].
    destruct (findBlogsInYearDir_spec (join repoDir year)) as [found [-> _]];
      [auto | auto | auto | reflexivity]. }
  exists blogs. split; [exact Hblogs|]. intros path. rewrite Hin. split.
  - intros [yearDir [found [HyearDir [Hfound Hpath]]]].
    destruct (Hyear yearDir HyearDir) as [year [-> [Hl Hm]]].
    destruct (findBlogsInYearDir_spec (join repoDir year)) as [found' [Hfound' Hspec]];
      [auto | auto | auto |].
    rewrite Hfound in Hfound'. injection Hfound' as <-.
    apply Hspec in Hpath. destruct Hpath as [month [day [name [H1 [H2 [H3 ->]]]]]].
    exists year, month, day, name. auto 10.
  - intros [year [month [day [name [Hl [Hm [H1 [H2 [H3 ->]]]]]]]]].
    destruct (findBlogsInYearDir_spec (join repoDir year)) as [found [Hfound Hspec]];
      [auto | auto | auto |].
    exists (join repoDir year), found. repeat split; [|assumption|].
    + destruct Hl as [names [Hread Hname]].
      rewrite Hresults in Hread. injection Hread as <-.
      apply List.in_map, List.filter_In. auto.
    + apply Hspec. exists month, day, name. auto.
Qed.

End Scan.

(** The root of the specification's example: a directory that is not a
    year and the post [2023/1/1/x.ext]; the scan yields that post. *)
Lemma findAllBlogs_exactly_under_date_dirs_witness :
  findAllBlogs Samples.repo Samples.fsOnePost
  = NodeFs.Fulfilled ["/home/blog/githublog/2023/1/1/x.ext"] /\
  exists blogs,
    findAllBlogs Samples.repo Samples.fsOnePost = NodeFs.Fulfilled blogs /\
    forall path, In path blogs <-> underDateDirs Samples.repo Samples.fsOnePost path.
Proof.
  split; [vm_compute; reflexivity|].
  apply (findAllBlogs_exactly_under_date_dirs Samples.repo Samples.fsOnePost).
  - reflexivity.
  - intros year Hyear Hmatch. listed Hyear; [discriminate | reflexivity].
  - intros year month Hyear Hmatch Hmonth. listed Hyear; [discriminate|].
    listed Hmonth. reflexivity.
  - intros year month day Hyear Hmatch Hmonth Hday. listed Hyear; [discriminate|].
    listed Hmonth. listed Hday. reflexivity.
Defined.

(** C7, as the specification has it, fails.  With a plain file where a
    month is expected, below a root that can be listed, the scan is
    rejected and yields nothing, not even the post next to that file;
    and a directory in the directory of a day is yielded like a post. *)
Lemma findAllBlogs_stray_entries_counterexample :
  NodeFs.readdir MoreSamples.fsStrayFile Samples.repo = NodeFs.Fulfilled ["2024"] /\
  NodeFs.readFile MoreSamples.fsStrayFile "/home/blog/githublog/2024/3/7/post.md"
  = NodeFs.Fulfilled "# Post" /\
  findAllBlogs Samples.repo MoreSamples.fsStrayFile = NodeFs.Rejected NodeFs.ENOTDIR /\
  findAllBlogs Samples.repo SampleTrees.fsNestedDir
  = NodeFs.Fulfilled [ "/home/blog/githublog/2024/3/7/post.md";
                       "/home/blog/githublog/2024/3/7/images" ] /\
  NodeFs.readdir SampleTrees.fsNestedDir "/home/blog/githublog/2024/3/7/images"
  = NodeFs.Fulfilled ["figure.png"].
Proof.
  split; [vm_compute; reflexivity|].
  split; [vm_compute; reflexivity|].
  split; [vm_compute; reflexivity|].
  split; vm_compute; reflexivity.
Qed.


(** ** More on strings *)

Module JsStringMore.

Import JsString.

Lemma occursIn_append (c : ascii) (s t : string) :
  occursIn c (s +:+ t) = occursIn c s || occursIn c t.
Proof.
  induction s as [|d s IH]; [reflexivity|].
  rewrite JsStringFacts.append_cons. cbn [occursIn]. now rewrite IH, orb_assoc.
Qed.

Lemma append_nil_r (s : string) : s +:+ EmptyString = s.
Proof.
  induction s as [|c s IH]; [reflexivity|].
  now rewrite JsStringFacts.append_cons, IH.
Qed.

Lemma append_inj_l (s t u : string) : s +:+ t = s +:+ u -> t = u.
Proof.
  induction s as [|c s IH]; intros H; [exact H|].
  rewrite !JsStringFacts.append_cons in H. injection H as H. now apply IH.
Qed.

Lemma split_nonempty (sep : ascii) (s : string) : split sep s <> [].
Proof.
  destruct s as [|c s]; simpl; [discriminate|].
  destruct (Ascii.eqb c sep); [discriminate|].
  destruct (split sep s); discriminate.
Qed.

(** A text without the separator is one piece. *)
Lemma split_without_separator (sep : ascii) (s : string) :
  occursIn sep s = false -> split sep s = [s].
Proof.
  induction s as [|c s IH]; intros H; [reflexivity|].
  cbn [occursIn] in H. apply orb_false_iff in H. destruct H as [Hc Hs].
  cbn [split]. rewrite Hc, (IH Hs). reflexivity.
Qed.

(** The pieces of a text around one separator. *)
Lemma split_append (sep : ascii) (s t : string) :
  split sep (s +:+ String sep t) = split sep s ++ split sep t.
Proof.
  induction s as [|c s IH].
  - change (EmptyString +:+ String sep t) with (String sep t).
    cbn [split]. now rewrite Ascii.eqb_refl.
  - rewrite JsStringFacts.append_cons. cbn [split].
    destruct (Ascii.eqb c sep); [now rewrite IH|].
    rewrite IH. pose proof (split_nonempty sep s) as Hne.
    destruct (split sep s) as [|piece pieces]; [contradiction | reflexivity].
Qed.

(** Joining the pieces gives the text back. *)
Lemma join_split (sep : ascii) (s : string) :
  join (String sep EmptyString) (split sep s) = s.
Proof.
  induction s as [|c s IH]; [reflexivity|].
  cbn [split]. destruct (Ascii.eqb c sep) eqn:Ec.
  - apply Ascii.eqb_eq in Ec. subst c.
    pose proof (split_nonempty sep s) as Hne.
    destruct (split sep s) as [|piece pieces]; [contradiction|].
    change (join (String sep "") (EmptyString :: piece :: pieces))
      with (EmptyString +:+ String sep "" +:+ join (String sep "") (piece :: pieces)).
    rewrite IH. reflexivity.
  - pose proof (split_nonempty sep s) as Hne.
    destruct (split sep s) as [|piece pieces]; [contradiction|].
    destruct pieces as [|piece' pieces].
    + cbn [join] in *. now rewrite IH.
    + change (join (String sep "") (String c piece :: piece' :: pieces))
        with (String c piece +:+ String sep "" +:+ join (String sep "") (piece' :: pieces)).
      change (join (String sep "") (piece :: piece' :: pieces))
        with (piece +:+ String sep "" +:+ join (String sep "") (piece' :: pieces)) in IH.
      rewrite JsStringFacts.append_cons. now rewrite IH.
Qed.

Lemma trimStart_head (s : string) (c : ascii) (rest : string) :
  trimStart s = String c rest -> isSpace c = false.
Proof.
  induction s as [|d s IH]; simpl; [discriminate|].
  destruct (isSpace d) eqn:Ed; [exact IH|].
  intros H. injection H as <- _. exact Ed.
Qed.

Lemma trimEnd_head (s : string) (c : ascii) (rest : string) :
  trimEnd s = String c rest -> exists rest', s = String c rest'.
Proof.
  destruct s as [|d s]; simpl; [discriminate|].
  destruct (trimEnd s); [destruct (isSpace d); [discriminate|]|];
    intros H; injection H as <- _; eauto.
Qed.

Lemma trim_head (s : string) (c : ascii) (rest : string) :
  trim s = String c rest -> isSpace c = false.
Proof.
  unfold trim. intros H. apply trimEnd_head in H. destruct H as [rest' H].
  exact (trimStart_head _ _ _ H).
Qed.

Lemma newlinesToSpaces_no_newline (s : string) :
  occursIn LF (newlinesToSpaces s) = false.
Proof.
  induction s as [|c s IH]; [reflexivity|].
  cbn [newlinesToSpaces occursIn]. rewrite IH, orb_false_r.
  destruct (Ascii.eqb c LF) eqn:Ec; [reflexivity | exact Ec].
Qed.

(** A replacement text without a dollar sign stands for itself. *)
Lemma substitution_plain (matched before after replacement : string) :
  occursIn "$"%char replacement = false ->
  substitution matched before after replacement = replacement.
Proof.
  induction replacement as [|c r IH]; intros H; [reflexivity|].
  cbn [occursIn] in H. apply orb_false_iff in H. destruct H as [Hc Hr].
  cbn [substitution]. rewrite Hc. now rewrite (IH Hr).
Qed.

(** The search for a pattern passes over a text without the first
    character of the pattern. *)
Lemma cut_skip (c : ascii) (pat s t : string) :
  occursIn c s = false ->
  cut (String c pat) (s +:+ t)
  = match cut (String c pat) t with
    | Some (before, after) => Some (s +:+ before, after)
    | None => None
    end.
Proof.
  induction s as [|d s IH]; intros H.
  - change (EmptyString +:+ t) with t. now destruct (cut (String c pat) t) as [[? ?]|].
  - cbn [occursIn] in H. apply orb_false_iff in H. destruct H as [Hd Hs].
    rewrite JsStringFacts.append_cons. cbn [cut stripPrefix].
    rewrite Ascii.eqb_sym, Hd. rewrite (IH Hs).
    now destruct (cut (String c pat) t) as [[? ?]|].
Qed.

End JsStringMore.

(** ** More on [sort] *)

Module JsArrayMore.

Import JsArray.

Section SortMore.
Context {A : Type}.

Lemma insertFromRight_ext (f g : A -> A -> option Z) (x : A) (prefixRev : list A) :
  (forall a b, sortCompare f a b = sortCompare g a b) ->
  insertFromRight f x prefixRev = insertFromRight g x prefixRev.
Proof.
  intros Hext. induction prefixRev as [|y rest IH]; [reflexivity|].
  cbn [insertFromRight]. rewrite Hext, IH. reflexivity.
Qed.

(** Comparators that answer alike sort alike. *)
Lemma sort_ext (f g : A -> A -> option Z) (arr : list A) :
  (forall a b, sortCompare f a b = sortCompare g a b) ->
  sort f arr = sort g arr.
Proof.
  intros Hext. unfold sort. f_equal.
  generalize (@nil A). induction arr as [|x arr IH]; intros acc; [reflexivity|].
  cbn [fold_left]. rewrite (insertFromRight_ext f g x acc Hext). apply IH.
Qed.

Lemma StronglySorted_front (R : A -> A -> Prop) (front back : list A) (x : A) :
  StronglySorted R (front ++ x :: back) -> List.Forall (fun y => R y x) front.
Proof.
  induction front as [|a front IH]; simpl; intros H; [constructor|].
  inversion H as [|? ? Hrest Ha]; subst. constructor; [|now apply IH].
  apply (proj1 (List.Forall_forall _ _) Ha). apply List.in_or_app. right. now left.
Qed.

(** An array in which no element compares greater than a later one is
    left as it is. *)
Lemma sort_in_order (comparefn : A -> A -> option Z) (arr : list A) :
  StronglySorted (fun y x => sortCompare comparefn y x <= 0) arr ->
  sort comparefn arr = arr.
Proof.
  intros Hsorted. unfold sort.
  assert (Hfold : forall todo done,
    StronglySorted (fun y x => sortCompare comparefn y x <= 0) (done ++ todo) ->
    fold_left (fun p x => insertFromRight comparefn x p) todo (rev done)
    = rev (done ++ todo)).
  { induction todo as [|x todo IH]; intros done Hs.
    - now rewrite app_nil_r.
    - cbn [fold_left].
      assert (Hinsert : insertFromRight comparefn x (rev done) = rev (done ++ [x])).
      { rewrite rev_app_distr. cbn [rev app].
        pose proof (StronglySorted_front _ _ _ _ Hs) as Hfront.
        destruct (rev done) as [|y rest] eqn:Erev; [reflexivity|].
        cbn [insertFromRight].
        assert (Hy : In y done).
        { apply List.in_rev. rewrite Erev. now left. }
        pose proof (proj1 (List.Forall_forall _ _) Hfront y Hy) as Hle.
        cbv beta in Hle.
        destruct (0 <? sortCompare comparefn y x) eqn:Hlt; [|reflexivity].
        apply Z.ltb_lt in Hlt. lia. }
      rewrite Hinsert, (IH (done ++ [x])); rewrite <- app_assoc; [reflexivity | exact Hs]. }
  pose proof (Hfold arr [] Hsorted) as Hall. cbn [rev app] in Hall.
  rewrite Hall. apply rev_involutive.
Qed.

End SortMore.

End JsArrayMore.

(** ** More on the metadata extractor *)

Section ExtractorMore.

Variable stripMarkdown : option string -> string.

Lemma nonEmptyLines_append (a b : string) :
  nonEmptyLines (a +:+ JsString.newline +:+ b) = nonEmptyLines a ++ nonEmptyLines b.
Proof.
  unfold nonEmptyLines.
  change (a +:+ JsString.newline +:+ b) with (a +:+ String JsString.LF b).
  now rewrite JsStringMore.split_append, List.filter_app.
Qed.

Lemma nonEmptyLines_line (line : string) :
  JsString.truthy line = true -> occursIn JsString.LF line = false ->
  nonEmptyLines line = [line].
Proof.
  intros Htruthy Hline. unfold nonEmptyLines.
  rewrite (JsStringMore.split_without_separator _ _ Hline). cbn [List.filter].
  now rewrite Htruthy.
Qed.

Lemma nonEmptyLines_leading (b : string) :
  nonEmptyLines (JsString.newline +:+ b) = nonEmptyLines b.
Proof. exact (nonEmptyLines_append EmptyString b). Qed.

Lemma extractPostInfo_of_lines (markdownContents : string) :
  extractPostInfo stripMarkdown markdownContents
  = {| title := stripMarkdown (head (nonEmptyLines markdownContents));
       description :=
         JsString.newlinesToSpaces
           (JsString.trim
              (stripMarkdown
                 (Some (JsString.take descriptionCharsToUse
                          (JsString.join JsString.newline
                             (tail (nonEmptyLines markdownContents)))))))
         +:+ "..." |}.
Proof. reflexivity. Qed.

(** X1.  The title comes from the first line and the description from
    what follows the first line break: of a text that starts with a
    non-empty line, the reducer is given that line for the title, and
    for the description the first 420 characters of the other
    non-empty lines joined by line feeds. *)
Theorem extractPostInfo_first_line (line rest : string) :
  JsString.truthy line = true ->
  occursIn JsString.LF line = false ->
  extractPostInfo stripMarkdown (line +:+ JsString.newline +:+ rest)
  = {| title := stripMarkdown (Some line);
       description :=
         JsString.newlinesToSpaces
           (JsString.trim
              (stripMarkdown
                 (Some (JsString.take 420
                          (JsString.join JsString.newline (nonEmptyLines rest))))))
         +:+ "..." |}.
Proof.
  intros Htruthy Hline.
  rewrite extractPostInfo_of_lines, nonEmptyLines_append.
  rewrite (nonEmptyLines_line line Htruthy Hline). reflexivity.
Qed.

(** X2.  Empty lines do not count: a line break doubled inside the
    text, put before it or put after it leaves the title and the
    description as they are. *)
Theorem extractPostInfo_ignores_empty_lines (a b : string) :
  extractPostInfo stripMarkdown (a +:+ JsString.newline +:+ JsString.newline +:+ b)
  = extractPostInfo stripMarkdown (a +:+ JsString.newline +:+ b) /\
  extractPostInfo stripMarkdown (JsString.newline +:+ b)
  = extractPostInfo stripMarkdown b /\
  extractPostInfo stripMarkdown (a +:+ JsString.newline)
  = extractPostInfo stripMarkdown a.
Proof.
  rewrite !extractPostInfo_of_lines.
  split; [|split].
  - rewrite (nonEmptyLines_append a (JsString.newline +:+ b)), nonEmptyLines_leading.
    rewrite (nonEmptyLines_append a b). reflexivity.
  - now rewrite nonEmptyLines_leading.
  - replace (a +:+ JsString.newline) with (a +:+ JsString.newline +:+ EmptyString)
      by (unfold JsString.newline; now rewrite JsStringMore.append_nil_r).
    rewrite (nonEmptyLines_append a EmptyString), app_nil_r. reflexivity.
Qed.

(** X3.  The description is one line, and it does not begin with white
    space: no line feed occurs in it, whatever the reducer returns. *)
Theorem description_is_one_line (markdownContents : string) :
  let text := description (extractPostInfo stripMarkdown markdownContents) in
  occursIn JsString.LF text = false /\
  forall c rest, text = String c rest -> JsString.isSpace c = false.
Proof.
  rewrite extractPostInfo_of_lines. cbn [description].
  set (reduced := stripMarkdown _). split.
  - rewrite JsStringMore.occursIn_append, JsStringMore.newlinesToSpaces_no_newline.
    reflexivity.
  - intros c rest Htext.
    destruct (JsString.trim reduced) as [|d body] eqn:Etrim.
    + injection Htext as <- _. reflexivity.
    + pose proof (JsStringMore.trim_head _ _ _ Etrim) as Hd.
      cbn [JsString.newlinesToSpaces] in Htext.
      rewrite JsStringFacts.append_cons in Htext. injection Htext as <- _.
      destruct (Ascii.eqb d JsString.LF) eqn:Ed; [|exact Hd].
      apply Ascii.eqb_eq in Ed. subst d. discriminate.
Qed.

End ExtractorMore.

Lemma extractPostInfo_first_line_witness :
  extractPostInfo Samples.verbatim
    ("# Title" +:+ JsString.newline +:+ JsString.newline +:+ "First paragraph."
       +:+ JsString.newline +:+ "Second line.")
  = {| title := "# Title";
       description := "First paragraph. Second line...." |}.
Proof.
  rewrite (extractPostInfo_first_line Samples.verbatim "# Title");
    [vm_compute; reflexivity | reflexivity | reflexivity].
Defined.

(** ** Digits, years and dates in paths *)

Module DigitFacts.

Import JsString.

Lemma digit_cases (c : ascii) :
  isDigit c = true ->
  In c ["0"; "1"; "2"; "3"; "4"; "5"; "6"; "7"; "8"; "9"]%char.
Proof.
  destruct c as [[] [] [] [] [] [] [] []]; vm_compute; intros H;
    try discriminate H; tauto.
Qed.

Lemma digit_not_slash (c : ascii) : isDigit c = true -> Ascii.eqb c "/" = false.
Proof.
  intros H. apply digit_cases in H.
  repeat (destruct H as [<-|H]; [reflexivity|]). contradiction.
Qed.

Lemma digitValue_range (c : ascii) : isDigit c = true -> 0 <= digitValue c <= 9.
Proof.
  intros H. apply digit_cases in H.
  repeat (destruct H as [<-|H]; [vm_compute; split; discriminate|]). contradiction.
Qed.

Lemma digit_two (c : ascii) : isDigit c = true -> digitValue c = 2 -> c = "2"%char.
Proof.
  intros H. apply digit_cases in H.
  repeat (destruct H as [<-|H]; [vm_compute; intros; try reflexivity; discriminate|]).
  contradiction.
Qed.

Lemma allDigits_no_slash (s : string) :
  allDigits s = true -> occursIn "/"%char s = false.
Proof.
  induction s as [|c s IH]; [reflexivity|].
  cbn [allDigits occursIn]. intros H. apply andb_true_iff in H. destruct H as [Hc Hs].
  now rewrite (digit_not_slash c Hc), (IH Hs).
Qed.

Lemma readDigits_step (acc : Z) (c : ascii) (rest : string) :
  isDigit c = true ->
  readDigits acc (String c rest) = readDigits (10 * acc + digitValue c) rest.
Proof. intros H. cbn [readDigits]. now rewrite H. Qed.

(** Digits read as a number below the power of ten of their count. *)
Lemma readDigits_allDigits (s : string) (acc : Z) :
  allDigits s = true -> 0 <= acc ->
  exists v, readDigits acc s = Some v /\
            acc * 10 ^ Z.of_nat (String.length s) <= v
            < (acc + 1) * 10 ^ Z.of_nat (String.length s).
Proof.
  revert acc. induction s as [|c s IH]; intros acc Hs Hacc.
  - exists acc. cbn. split; [reflexivity | lia].
  - cbn [allDigits] in Hs. apply andb_true_iff in Hs. destruct Hs as [Hc Hs].
    rewrite (readDigits_step acc c s Hc).
    pose proof (digitValue_range c Hc) as Hv.
    destruct (IH (10 * acc + digitValue c) Hs ltac:(lia)) as [v [-> Hbound]].
    exists v. split; [reflexivity|].
    cbn [String.length]. rewrite Nat2Z.inj_succ, Z.pow_succ_r by lia.
    set (p := 10 ^ Z.of_nat (String.length s)) in *.
    assert (0 < p) by (apply Z.pow_pos_nonneg; lia). nia.
Qed.

Lemma readDigits_only_digits (s : string) (acc v : Z) :
  readDigits acc s = Some v -> allDigits s = true.
Proof.
  revert acc. induction s as [|c s IH]; intros acc H; [reflexivity|].
  cbn [readDigits] in H. cbn [allDigits].
  destruct (isDigit c); [|discriminate]. exact (IH _ H).
Qed.

End DigitFacts.

Section YearNames.

Lemma yearRegex_spec (name : string) :
  JsRegExp.yearRegex name = true <->
  String.length name = 4%nat /\
  exists year, JsString.readDigits 0 name = Some year /\ 2000 <= year <= 2999.
Proof.
  split.
  - destruct name as [|a [|b [|c [|d [|e rest]]]]]; try discriminate.
    cbn [JsRegExp.yearRegex]. intros H.
    apply andb_true_iff in H. destruct H as [H Hd].
    apply andb_true_iff in H. destruct H as [H Hc].
    apply andb_true_iff in H. destruct H as [Ha Hb].
    apply Ascii.eqb_eq in Ha. subst a. split; [reflexivity|].
    pose proof (DigitFacts.digitValue_range b Hb).
    pose proof (DigitFacts.digitValue_range c Hc).
    pose proof (DigitFacts.digitValue_range d Hd).
    rewrite DigitFacts.readDigits_step by reflexivity.
    rewrite !DigitFacts.readDigits_step by assumption.
    eexists. split; [reflexivity|].
    change (JsString.digitValue "2") with 2. lia.
  - intros [Hlen [year [Hread Hrange]]].
    destruct name as [|a [|b [|c [|d [|e rest]]]]]; try discriminate.
    pose proof (DigitFacts.readDigits_only_digits _ _ _ Hread) as Hdigits.
    cbn [allDigits] in Hdigits.
    apply andb_true_iff in Hdigits. destruct Hdigits as [Ha Hdigits].
    apply andb_true_iff in Hdigits. destruct Hdigits as [Hb Hdigits].
    apply andb_true_iff in Hdigits. destruct Hdigits as [Hc Hdigits].
    apply andb_true_iff in Hdigits. destruct Hdigits as [Hd _].
    rewrite !DigitFacts.readDigits_step in Hread by assumption.
    injection Hread as Hyear.
    pose proof (DigitFacts.digitValue_range a Ha).
    pose proof (DigitFacts.digitValue_range b Hb).
    pose proof (DigitFacts.digitValue_range c Hc).
    pose proof (DigitFacts.digitValue_range d Hd).
    assert (Htwo : JsString.digitValue a = 2) by lia.
    rewrite (DigitFacts.digit_two a Ha Htwo).
    cbn [JsRegExp.yearRegex]. now rewrite Hb, Hc, Hd.
Qed.

(** X4.  The names the scan takes for years are the four-digit decimal
    numbers from 2000 to 2999, and nothing else. *)
Theorem yearRegex_accepts_2000_to_2999 (name : string) :
  JsRegExp.yearRegex name = true <->
  String.length name = 4%nat /\
  exists year, JsString.readDigits 0 name = Some year /\ 2000 <= year <= 2999.
Proof. exact (yearRegex_spec name). Qed.

End YearNames.

(** ** What the date pattern captures *)

Module CaptureFacts.

Import JsString JsRegExp.

Lemma dayAt_short (s day : string) : dayAt s = Some day -> oneOrTwoDigits day.
Proof.
  destruct s as [|a [|b rest]]; cbn [dayAt]; try discriminate.
  destruct (isDigit a) eqn:Ha; [|discriminate].
  destruct (isDigit b && _) eqn:Hb.
  - apply andb_true_iff in Hb. destruct Hb as [Hb _].
    intros H. injection H as <-. split; [|now right].
    cbn [allDigits]. now rewrite Ha, Hb.
  - destruct (negb (isLineTerminator b)); [|discriminate].
    intros H. injection H as <-. split; [|now left].
    cbn [allDigits]. now rewrite Ha.
Qed.

Lemma monthAt_short (s text : string) :
  monthAt s = Some text ->
  exists month day, text = month +:+ "/" +:+ day /\ oneOrTwoDigits month /\ oneOrTwoDigits day.
Proof.
  destruct s as [|a [|b rest]]; cbn [monthAt]; try discriminate.
  destruct (isDigit a) eqn:Ha; [|discriminate].
  destruct (Ascii.eqb b "/") eqn:Hslash.
  - apply Ascii.eqb_eq in Hslash. subst b. unfold prepend.
    destruct (dayAt rest) as [day|] eqn:Hday; [|discriminate].
    intros H. injection H as <-.
    exists (String a EmptyString), day. split; [reflexivity|].
    split; [|exact (dayAt_short _ _ Hday)].
    split; [|now left]. cbn [allDigits]. now rewrite Ha.
  - destruct (isDigit b) eqn:Hb; [|discriminate].
    destruct rest as [|c rest']; [discriminate|].
    destruct (Ascii.eqb c "/") eqn:Hc; [|discriminate].
    apply Ascii.eqb_eq in Hc. subst c. unfold prepend.
    destruct (dayAt rest') as [day|] eqn:Hday; [|discriminate].
    intros H. injection H as <-.
    exists (String a (String b EmptyString)), day. split; [reflexivity|].
    split; [|exact (dayAt_short _ _ Hday)].
    split; [|now right]. cbn [allDigits]. now rewrite Ha, Hb.
Qed.

Lemma dateAt_shape (s capture : string) :
  dateAt s = Some capture ->
  exists year month day,
    capture = year +:+ "/" +:+ month +:+ "/" +:+ day /\
    yearRegex year = true /\ oneOrTwoDigits month /\ oneOrTwoDigits day.
Proof.
  destruct s as [|a [|b [|c [|d [|e rest]]]]]; cbn [dateAt]; try discriminate.
  destruct (Ascii.eqb a "2" && isDigit b && isDigit c && isDigit d && Ascii.eqb e "/")
    eqn:Hhead; [|discriminate].
  apply andb_true_iff in Hhead. destruct Hhead as [Hyear He].
  apply Ascii.eqb_eq in He. subst e. unfold prepend.
  destruct (monthAt rest) as [text|] eqn:Htext; [|discriminate].
  intros H. injection H as <-.
  destruct (monthAt_short _ _ Htext) as [month [day [-> [Hmonth Hday]]]].
  exists (String a (String b (String c (String d EmptyString)))), month, day.
  split; [reflexivity|]. split; [exact Hyear | split; assumption].
Qed.

Lemma lazyDots_shape (s capture : string) :
  lazyDots s = Some capture -> exists s', dateAt s' = Some capture.
Proof.
  induction s as [|c s IH]; cbn [lazyDots]; [discriminate|].
  destruct (isLineTerminator c); [discriminate|].
  destruct (dateAt s) as [found|] eqn:Hfound.
  - intros H. injection H as <-. eauto.
  - exact IH.
Qed.

Lemma dateExtractionRegex_shape (s capture : string) :
  dateExtractionRegex s = Some capture ->
  exists year month day,
    capture = year +:+ "/" +:+ month +:+ "/" +:+ day /\
    yearRegex year = true /\ oneOrTwoDigits month /\ oneOrTwoDigits day.
Proof.
  induction s as [|c s IH]; [discriminate|].
  change (dateExtractionRegex (String c s))
    with (match lazyDots (String c s) with
          | Some found => Some found
          | None => dateExtractionRegex s
          end).
  destruct (lazyDots (String c s)) as [found|] eqn:Hfound.
  - intros H. injection H as <-.
    destruct (lazyDots_shape _ _ Hfound) as [s' Hs']. exact (dateAt_shape _ _ Hs').
  - exact IH.
Qed.

Lemma short_number (s : string) :
  oneOrTwoDigits s -> exists n, JsDate.shortNumber s = Some n /\ 0 <= n <= 99.
Proof.
  intros [Hdigits Hlen].
  destruct (DigitFacts.readDigits_allDigits s 0 Hdigits ltac:(lia)) as [n [Hn Hbound]].
  exists n. unfold JsDate.shortNumber.
  destruct Hlen as [Hlen|Hlen]; rewrite Hlen in *; (split; [exact Hn|]);
    cbn in Hbound; lia.
Qed.

Lemma year_number (s : string) :
  yearRegex s = true ->
  exists y, JsDate.fourDigitYear s = Some y /\ 2000 <= y <= 2999.
Proof.
  intros Hyear.
  destruct (proj1 (yearRegex_spec s) Hyear) as [Hlen [y [Hy Hrange]]].
  exists y. split; [|exact Hrange].
  destruct s as [|a rest]; [discriminate|]. unfold JsDate.fourDigitYear.
  rewrite Hlen. cbn [Nat.eqb andb].
  cbn [yearRegex] in Hyear. destruct rest as [|b [|c [|d [|e r]]]]; try discriminate.
  apply andb_true_iff in Hyear. destruct Hyear as [Hyear _].
  apply andb_true_iff in Hyear. destruct Hyear as [Hyear _].
  apply andb_true_iff in Hyear. destruct Hyear as [Ha _].
  apply Ascii.eqb_eq in Ha. subst a. exact Hy.
Qed.

(** [new Date] on a text of the form [YYYY/M/D]. *)
Lemma parse_year_month_day (tz : Z) (otherFormats : string -> option Z)
    (year month day : string) (y m d : Z) :
  occursIn "/"%char year = false -> occursIn "/"%char month = false ->
  occursIn "/"%char day = false ->
  JsDate.fourDigitYear year = Some y ->
  JsDate.shortNumber month = Some m ->
  JsDate.shortNumber day = Some d ->
  JsDate.parse tz otherFormats (year +:+ "/" +:+ month +:+ "/" +:+ day)
  = if inCalendarRange m d
    then Some (JsDate.UTC tz (JsDate.MakeDate (JsDate.MakeDay y m d) 0))
    else None.
Proof.
  intros Hyear Hmonth Hday Hy Hm Hd. unfold JsDate.parse.
  change (year +:+ "/" +:+ month +:+ "/" +:+ day)
    with (year +:+ String "/" (month +:+ String "/" day)).
  rewrite !JsStringMore.split_append.
  rewrite !JsStringMore.split_without_separator by assumption.
  cbn [app]. rewrite Hy, Hm, Hd. reflexivity.
Qed.

(** The date of a capture: a day between 2000 and 2999, or none when
    the month or the day is out of range; the host enters through its
    time zone only. *)
Lemma capture_date (blog capture : string) :
  dateExtractionRegex blog = Some capture ->
  exists y m d,
    2000 <= y <= 2999 /\
    forall tz otherFormats,
      JsDate.parse tz otherFormats capture
      = if inCalendarRange m d
        then Some (JsDate.UTC tz (JsDate.MakeDate (JsDate.MakeDay y m d) 0))
        else None.
Proof.
  intros Hmatch.
  destruct (dateExtractionRegex_shape _ _ Hmatch)
    as [year [month [day [-> [Hyear [Hmonth Hday]]]]]].
  destruct (year_number year Hyear) as [y [Hy Hrange]].
  destruct (short_number month Hmonth) as [m [Hm _]].
  destruct (short_number day Hday) as [d [Hd _]].
  exists y, m, d. split; [exact Hrange|]. intros tz otherFormats.
  apply parse_year_month_day; try assumption.
  - apply DigitFacts.allDigits_no_slash.
    destruct (proj1 (yearRegex_spec year) Hyear) as [_ [y' [Hy' _]]].
    exact (DigitFacts.readDigits_only_digits _ _ _ Hy').
  - apply DigitFacts.allDigits_no_slash, Hmonth.
  - apply DigitFacts.allDigits_no_slash, Hday.
Qed.

End CaptureFacts.

Section DatesInPaths.

(** X5.  Every date the ordering step resolves is midnight, in local
    time, of a day of a year from 2000 to 2999, with a month from 1 to
    12 and a day from 1 to 31. *)
Theorem resolvedDate_is_local_midnight
    (tz : Z) (otherFormats : string -> option Z) (blog : string) (t : Z) :
  resolvedDate tz otherFormats blog = Some t ->
  exists y m d,
    2000 <= y <= 2999 /\ 1 <= m <= 12 /\ 1 <= d <= 31 /\
    t = JsDate.UTC tz (JsDate.MakeDate (JsDate.MakeDay y m d) 0).
Proof.
  unfold resolvedDate, matchedDate.
  destruct (JsRegExp.dateExtractionRegex blog) as [capture|] eqn:Hmatch; [|discriminate].
  destruct (CaptureFacts.capture_date _ _ Hmatch) as [y [m [d [Hy Hparse]]]].
  rewrite (Hparse tz otherFormats).
  destruct (inCalendarRange m d) eqn:Hrange; [|discriminate].
  intros H. injection H as <-. exists y, m, d.
  unfold inCalendarRange in Hrange.
  repeat (apply andb_true_iff in Hrange; destruct Hrange as [Hrange ?]).
  repeat split; try lia.
Qed.

(** X6.  The order does not depend on what the host's [Date] makes of
    texts outside the form [YYYY/M/D]: every text the comparator hands
    to [Date] has that form, so two hosts of one time zone compare, and
    sort, alike. *)
Theorem sortBlogs_never_reads_other_formats
    (tz : Z) (otherFormats otherFormats' : string -> option Z)
    (allBlogs : list string) :
  (forall a b, compareBlogs tz otherFormats a b = compareBlogs tz otherFormats' a b) /\
  sortBlogs tz otherFormats allBlogs = sortBlogs tz otherFormats' allBlogs.
Proof.
  assert (Hcompare : forall a b,
    compareBlogs tz otherFormats a b = compareBlogs tz otherFormats' a b).
  { intros a b. unfold compareBlogs, matchedDate.
    destruct (JsRegExp.dateExtractionRegex a) as [ca|] eqn:Ha; [|reflexivity].
    destruct (JsRegExp.dateExtractionRegex b) as [cb|] eqn:Hb; [|reflexivity].
    destruct (CaptureFacts.capture_date _ _ Ha) as [ya [ma [da [_ Hpa]]]].
    destruct (CaptureFacts.capture_date _ _ Hb) as [yb [mb [db [_ Hpb]]]].
    now rewrite !Hpa, !Hpb. }
  split; [exact Hcompare|].
  unfold sortBlogs. apply JsArrayMore.sort_ext.
  intros a b. unfold JsArray.sortCompare. now rewrite Hcompare.
Qed.

End DatesInPaths.

Lemma resolvedDate_is_local_midnight_witness :
  exists y m d,
    2000 <= y <= 2999 /\ 1 <= m <= 12 /\ 1 <= d <= 31 /\
    1655251200000 = JsDate.UTC 0 (JsDate.MakeDate (JsDate.MakeDay y m d) 0).
Proof.
  apply (resolvedDate_is_local_midnight 0 Samples.noOtherFormats
           "/home/blog/githublog/2022/6/15/rolling-your-own-crypto-aes.md").
  vm_compute. reflexivity.
Defined.

(** ** More on the ordering of the posts *)

Section OrderingMore.

Variable tz : Z.
Variable otherFormats : string -> option Z.

Lemma StronglySorted_pairwise {A : Type} (R : A -> A -> Prop) (l : list A) :
  (forall x y, In x l -> In y l -> R x y) -> StronglySorted R l.
Proof.
  induction l as [|a l IH]; intros H; constructor.
  - apply IH. intros x y Hx Hy. apply H; now right.
  - apply List.Forall_forall. intros y Hy. apply H; [now left | now right].
Qed.

Lemma StronglySorted_weaken {A : Type} (R R' : A -> A -> Prop) (l : list A) :
  StronglySorted R l ->
  (forall x y, In x l -> In y l -> R x y -> R' x y) ->
  StronglySorted R' l.
Proof.
  induction 1 as [|a l Hl IH Ha]; intros Himpl; constructor.
  - apply IH. intros x y Hx Hy. apply Himpl; now right.
  - apply List.Forall_forall. intros y Hy.
    apply Himpl; [now left | now right |].
    exact (proj1 (List.Forall_forall _ _) Ha y Hy).
Qed.

Lemma compareBlogs_undated (a b : string) :
  resolvedDate tz otherFormats a = None ->
  JsArray.sortCompare (compareBlogs tz otherFormats) a b = 0 /\
  JsArray.sortCompare (compareBlogs tz otherFormats) b a = 0.
Proof.
  unfold JsArray.sortCompare, compareBlogs, resolvedDate.
  destruct (matchedDate tz otherFormats a) as [[ta|]|]; [discriminate| |];
    destruct (matchedDate tz otherFormats b) as [[tb|]|]; intros _; split; reflexivity.
Qed.

(** X7.  Sorting neither drops nor repeats a path, whether the paths
    have dates or not. *)
Theorem sortBlogs_permutes (allBlogs : list string) :
  Permutation allBlogs (sortBlogs tz otherFormats allBlogs) /\
  length (sortBlogs tz otherFormats allBlogs) = length allBlogs.
Proof.
  pose proof (JsArrayFacts.sort_perm (compareBlogs tz otherFormats) allBlogs) as Hperm.
  split; [exact Hperm|]. symmetry. exact (Permutation_length Hperm).
Qed.

(** X8.  Paths without a resolvable date are left in scan order: when
    no scanned path has one, the sorted array is the scanned array. *)
Theorem sortBlogs_undated_in_scan_order (allBlogs : list string) :
  (forall blog, In blog allBlogs -> resolvedDate tz otherFormats blog = None) ->
  sortBlogs tz otherFormats allBlogs = allBlogs.
Proof.
  intros Hundated. unfold sortBlogs. apply JsArrayMore.sort_in_order.
  apply StronglySorted_pairwise. intros x y Hx _.
  destruct (compareBlogs_undated x y (Hundated x Hx)) as [-> _]. lia.
Qed.

(** X9.  Sorting again changes nothing: when every path has a
    resolvable date, the sorted array sorts to itself. *)
Theorem sortBlogs_idempotent (allBlogs : list string) :
  (forall blog, In blog allBlogs -> resolvedDate tz otherFormats blog <> None) ->
  sortBlogs tz otherFormats (sortBlogs tz otherFormats allBlogs)
  = sortBlogs tz otherFormats allBlogs.
Proof.
  intros Hdated.
  pose proof (JsArrayFacts.sort_perm (compareBlogs tz otherFormats) allBlogs) as Hperm.
  destruct (JsArrayFacts.sort_by_key (compareBlogs tz otherFormats)
              (fun blog => match resolvedDate tz otherFormats blog with
                           | Some t => t
                           | None => 0
                           end)
              (fun blog => resolvedDate tz otherFormats blog <> None)
              (compareBlogs_dated tz otherFormats) allBlogs
              (proj2 (List.Forall_forall _ _) Hdated)) as [Hsorted _].
  fold (sortBlogs tz otherFormats allBlogs) in Hperm, Hsorted.
  unfold sortBlogs at 1. apply JsArrayMore.sort_in_order.
  apply (StronglySorted_weaken _ _ _ Hsorted).
  intros x y Hx Hy Hle.
  rewrite (compareBlogs_dated tz otherFormats x y).
  - lia.
  - apply Hdated. exact (Permutation_in x (Permutation_sym Hperm) Hx).
  - apply Hdated. exact (Permutation_in y (Permutation_sym Hperm) Hy).
Qed.

End OrderingMore.

Lemma sortBlogs_undated_in_scan_order_witness :
  sortBlogs 0 Samples.noOtherFormats
    [ "/home/blog/githublog/2024/notes/b/second.md";
      "/home/blog/githublog/2024/13/1/first.md" ]
  = [ "/home/blog/githublog/2024/notes/b/second.md";
      "/home/blog/githublog/2024/13/1/first.md" ].
Proof.
  apply (sortBlogs_undated_in_scan_order 0 Samples.noOtherFormats).
  intros blog [<-|[<-|[]]]; vm_compute; reflexivity.
Defined.

Lemma sortBlogs_idempotent_witness :
  let allBlogs := [ "/home/blog/githublog/2024/11/26/getting-an-ip-address.md";
                    "/home/blog/githublog/2022/6/15/rolling-your-own-crypto-aes.md" ] in
  sortBlogs 0 Samples.noOtherFormats (sortBlogs 0 Samples.noOtherFormats allBlogs)
  = sortBlogs 0 Samples.noOtherFormats allBlogs.
Proof.
  intros allBlogs.
  apply (sortBlogs_idempotent 0 Samples.noOtherFormats allBlogs).
  intros blog [<-|[<-|[]]]; vm_compute; discriminate.
Defined.

(** ** The paths of the posts, their links and their dates *)

Section PostPaths.

Import NodeFs.

Variable repoDir : string.

Lemma endsWith_without_slash (name : string) :
  occursIn "/"%char name = false -> JsString.endsWith name "/" = false.
Proof.
  induction name as [|c rest IH]; intros H; [reflexivity|].
  cbn [occursIn] in H. apply orb_false_iff in H. destruct H as [Hc Hrest].
  change (JsString.endsWith (String c rest) "/")
    with (String.eqb (String c rest) "/" || JsString.endsWith rest "/").
  rewrite (IH Hrest), orb_false_r.
  destruct (String.eqb (String c rest) "/") eqn:E; [|reflexivity].
  apply String.eqb_eq in E. injection E as -> _. discriminate.
Qed.

Lemma isPlainName_spec (name : string) :
  isPlainName name = true ->
  occursIn "/"%char name = false /\ (1 <= String.length name)%nat.
Proof.
  unfold isPlainName. intros H. apply andb_true_iff in H. destruct H as [Htruthy Hslash].
  apply negb_true_iff in Hslash. split; [exact Hslash|].
  destruct name; [discriminate | simpl; lia].
Qed.

Lemma join_plain_name (dir name : string) :
  isPlainName name = true -> JsString.endsWith (join dir name) "/" = false.
Proof.
  intros Hname. destruct (isPlainName_spec name Hname) as [Hslash Hlen].
  unfold join. destruct (JsString.endsWith dir "/").
  - rewrite endsWith_append_short by (simpl; lia). now apply endsWith_without_slash.
  - rewrite <- JsStringFacts.append_assoc.
    rewrite endsWith_append_short by (simpl; lia). now apply endsWith_without_slash.
Qed.

(** The path of a post below a repository that is not the root of the
    file system. *)
Lemma post_path (year month day name : string) :
  JsString.endsWith repoDir "/" = false ->
  isPlainName year = true -> isPlainName month = true -> isPlainName day = true ->
  join (join (join (join repoDir year) month) day) name
  = (repoDir +:+ "/") +:+ year +:+ "/" +:+ month +:+ "/" +:+ day +:+ "/" +:+ name.
Proof.
  intros Hroot Hyear Hmonth Hday.
  rewrite (join_plain (join (join (join repoDir year) month) day) name)
    by now apply join_plain_name.
  rewrite (join_plain (join (join repoDir year) month) day)
    by now apply join_plain_name.
  rewrite (join_plain (join repoDir year) month) by now apply join_plain_name.
  rewrite (join_plain repoDir year Hroot).
  now rewrite !JsStringFacts.append_assoc.
Qed.

Lemma url_under_repoDir (rest : string) :
  url repoDir (repoDir +:+ rest) = githubURLPrefix +:+ rest.
Proof.
  unfold url, JsString.replace. rewrite JsStringFacts.cut_append. reflexivity.
Qed.

(** X10.  The link of a post is the address of the repository's main
    branch followed by the path of the post below the repository. *)
Theorem url_of_post (year month day name : string) :
  JsString.endsWith repoDir "/" = false ->
  isPlainName year = true -> isPlainName month = true -> isPlainName day = true ->
  url repoDir (join (join (join (join repoDir year) month) day) name)
  = "https://github.com/francisrstokes/githublog/blob/main/"
    +:+ year +:+ "/" +:+ month +:+ "/" +:+ day +:+ "/" +:+ name.
Proof.
  intros Hroot Hyear Hmonth Hday.
  rewrite (post_path year month day name Hroot Hyear Hmonth Hday).
  rewrite JsStringFacts.append_assoc, url_under_repoDir. reflexivity.
Qed.

(** X11.  Two different paths below the repository get different links. *)
Theorem url_injective (rest rest' : string) :
  rest <> rest' ->
  url repoDir (repoDir +:+ rest) <> url repoDir (repoDir +:+ rest').
Proof.
  intros Hdiff Hsame. apply Hdiff. revert Hsame.
  rewrite !url_under_repoDir. apply JsStringMore.append_inj_l.
Qed.

Lemma extractedDate_post_path (year month day name : string) :
  JsString.endsWith repoDir "/" = false ->
  isPlainName year = true -> isPlainName month = true -> isPlainName day = true ->
  extractedDate repoDir (join (join (join (join repoDir year) month) day) name)
  = year +:+ "/" +:+ month +:+ "/" +:+ day.
Proof.
  intros Hroot Hyear Hmonth Hday.
  rewrite (post_path year month day name Hroot Hyear Hmonth Hday).
  unfold extractedDate, JsString.replace. rewrite JsStringFacts.cut_append.
  change (EmptyString +:+ JsString.substitution (repoDir +:+ "/") EmptyString
            (year +:+ "/" +:+ month +:+ "/" +:+ day +:+ "/" +:+ name) EmptyString
          +:+ year +:+ "/" +:+ month +:+ "/" +:+ day +:+ "/" +:+ name)
    with (year +:+ String "/" (month +:+ String "/" (day +:+ String "/" name))).
  rewrite !JsStringMore.split_append.
  rewrite !JsStringMore.split_without_separator
    by (now apply isPlainName_spec).
  pose proof (JsStringMore.split_nonempty "/" name) as Hne.
  destruct (JsString.split "/" name) as [|piece pieces]; [contradiction|].
  reflexivity.
Qed.

(** X12.  The date text of a post is made of the names of its three
    directories, whatever the name of the file. *)
Theorem extractedDate_of_post (year month day name : string) :
  JsString.endsWith repoDir "/" = false ->
  isPlainName year = true -> isPlainName month = true -> isPlainName day = true ->
  extractedDate repoDir (join (join (join (join repoDir year) month) day) name)
  = year +:+ "/" +:+ month +:+ "/" +:+ day.
Proof. exact (extractedDate_post_path year month day name). Qed.

End PostPaths.

Section PostDates.

Import NodeFs.

Variable repoDir : string.
Variable tz : Z.
Variable otherFormats : string -> option Z.

Lemma digits_plain (s : string) :
  allDigits s = true -> (1 <= String.length s)%nat -> isPlainName s = true.
Proof.
  intros Hdigits Hlen. unfold isPlainName.
  rewrite (DigitFacts.allDigits_no_slash s Hdigits).
  destruct s; [simpl in Hlen; lia | reflexivity].
Qed.

(** X13.  The publication date of a post in numbered directories is
    midnight of that day in local time, printed in UTC; with a month
    outside 1 to 12 or a day outside 1 to 31 it is [Invalid Date]. *)
Theorem pubDate_of_post (year month day name : string) :
  JsString.endsWith repoDir "/" = false ->
  JsRegExp.yearRegex year = true ->
  oneOrTwoDigits month -> oneOrTwoDigits day ->
  exists y m d,
    JsString.readDigits 0 year = Some y /\
    JsString.readDigits 0 month = Some m /\
    JsString.readDigits 0 day = Some d /\
    pubDate repoDir tz otherFormats
      (join (join (join (join repoDir year) month) day) name)
    = if inCalendarRange m d
      then JsDate.toUTCString
             (Some (JsDate.UTC tz (JsDate.MakeDate (JsDate.MakeDay y m d) 0)))
      else "Invalid Date".
Proof.
  intros Hroot Hyear Hmonth Hday.
  destruct (proj1 (yearRegex_spec year) Hyear) as [Hlen [y [Hy _]]].
  pose proof (DigitFacts.readDigits_only_digits _ _ _ Hy) as Hydigits.
  destruct (CaptureFacts.year_number year Hyear) as [y' [Hy' _]].
  destruct (CaptureFacts.short_number month Hmonth) as [m [Hm _]].
  destruct (CaptureFacts.short_number day Hday) as [d [Hd _]].
  assert (Hsame : y' = y).
  { unfold JsDate.fourDigitYear in Hy'. destruct year; [discriminate|].
    destruct (_ && _) in Hy'; [|discriminate]. congruence. }
  subst y'.
  exists y, m, d. split; [exact Hy|].
  split.
  { unfold JsDate.shortNumber in Hm.
    destruct Hmonth as [_ [Hl|Hl]]; rewrite Hl in Hm; exact Hm. }
  split.
  { unfold JsDate.shortNumber in Hd.
    destruct Hday as [_ [Hl|Hl]]; rewrite Hl in Hd; exact Hd. }
  unfold pubDate.
  rewrite (extractedDate_post_path repoDir year month day name Hroot).
  - rewrite (CaptureFacts.parse_year_month_day tz otherFormats year month day y m d);
      try assumption; try (apply DigitFacts.allDigits_no_slash; assumption).
    + now destruct (inCalendarRange m d).
    + apply DigitFacts.allDigits_no_slash, Hmonth.
    + apply DigitFacts.allDigits_no_slash, Hday.
  - apply digits_plain; [assumption | lia].
  - destruct Hmonth as [Hdigits [Hl|Hl]]; apply digits_plain; try assumption; lia.
  - destruct Hday as [Hdigits [Hl|Hl]]; apply digits_plain; try assumption; lia.
Qed.

End PostDates.

Lemma url_of_post_witness :
  url Samples.repo "/home/blog/githublog/2024/5/10/cordic.md"
  = "https://github.com/francisrstokes/githublog/blob/main/2024/5/10/cordic.md".
Proof.
  apply (url_of_post Samples.repo "2024" "5" "10" "cordic.md"); reflexivity.
Defined.

Lemma extractedDate_of_post_witness :
  extractedDate Samples.repo "/home/blog/githublog/2024/5/10/cordic.md" = "2024/5/10".
Proof.
  apply (extractedDate_of_post Samples.repo "2024" "5" "10" "cordic.md"); reflexivity.
Defined.

Lemma pubDate_of_post_witness :
  exists y m d,
    JsString.readDigits 0 "2024" = Some y /\
    JsString.readDigits 0 "13" = Some m /\
    JsString.readDigits 0 "1" = Some d /\
    pubDate Samples.repo 0 Samples.noOtherFormats "/home/blog/githublog/2024/13/1/post.md"
    = if inCalendarRange m d
      then JsDate.toUTCString
             (Some (JsDate.UTC 0 (JsDate.MakeDate (JsDate.MakeDay y m d) 0)))
      else "Invalid Date".
Proof.
  apply (pubDate_of_post Samples.repo 0 Samples.noOtherFormats "2024" "13" "1" "post.md").
  - reflexivity.
  - reflexivity.
  - split; [reflexivity | now right].
  - split; [reflexivity | now left].
Defined.

(** ** The layout of the feed *)

Module TemplateFacts.

Import JsString.

Lemma unlines_app (a b : list string) : unlines (a ++ b) = unlines a +:+ unlines b.
Proof.
  induction a as [|l a IH]; [reflexivity|].
  cbn [app unlines]. now rewrite IH, !JsStringFacts.append_assoc.
Qed.

Lemma digitChar_digit (d : Z) : 0 <= d < 10 -> isDigit (digitChar d) = true.
Proof.
  intros Hd.
  assert (H : d = 0 \/ d = 1 \/ d = 2 \/ d = 3 \/ d = 4 \/ d = 5 \/ d = 6 \/ d = 7
              \/ d = 8 \/ d = 9) by lia.
  repeat (destruct H as [->|H]; [reflexivity|]). now subst.
Qed.

Lemma digit_is_not_other (c d : ascii) :
  isDigit d = true -> isDigit c = false -> Ascii.eqb d c = false.
Proof.
  intros Hd Hc. destruct (Ascii.eqb d c) eqn:E; [|reflexivity].
  apply Ascii.eqb_eq in E. congruence.
Qed.

(** A character that is not a digit does not occur in a number. *)
Lemma occursIn_decimalAux (c : ascii) (fuel : nat) (n : Z) (acc : string) :
  isDigit c = false ->
  occursIn c (decimalAux fuel n acc) = occursIn c acc.
Proof.
  intros Hc. revert n acc. induction fuel as [|fuel IH]; intros n acc; [reflexivity|].
  cbn [decimalAux].
  assert (Hstep : occursIn c (String (digitChar (n mod 10)) acc) = occursIn c acc).
  { cbn [occursIn].
    rewrite (digit_is_not_other c _ (digitChar_digit _ (Z.mod_pos_bound n 10 eq_refl)) Hc).
    reflexivity. }
  destruct (n <? 10); [exact Hstep|]. now rewrite IH.
Qed.

Lemma occursIn_decimal (c : ascii) (n : Z) :
  isDigit c = false -> Ascii.eqb "-" c = false -> occursIn c (decimal n) = false.
Proof.
  intros Hc Hminus. unfold decimal. destruct (n <? 0).
  - rewrite JsStringMore.occursIn_append, occursIn_decimalAux by assumption.
    cbn [occursIn]. now rewrite Hminus.
  - now rewrite occursIn_decimalAux.
Qed.

Lemma occursIn_twoDigits (c : ascii) (n : Z) :
  isDigit c = false -> Ascii.eqb "-" c = false -> occursIn c (twoDigits n) = false.
Proof.
  intros Hc Hminus. unfold twoDigits. destruct (n <? 10).
  - rewrite JsStringMore.occursIn_append, occursIn_decimal by assumption.
    cbn [occursIn]. now rewrite (digit_is_not_other c "0" eq_refl Hc).
  - now apply occursIn_decimal.
Qed.

Lemma occursIn_fourDigits (c : ascii) (n : Z) :
  isDigit c = false -> Ascii.eqb "-" c = false -> occursIn c (fourDigits n) = false.
Proof.
  intros Hc Hminus. unfold fourDigits.
  repeat (match goal with |- context [if ?b then _ else _] => destruct b end);
    rewrite ?JsStringMore.occursIn_append, occursIn_decimal by assumption;
    cbn [occursIn]; rewrite ?(digit_is_not_other c "0" eq_refl Hc); reflexivity.
Qed.

(** No brace and no dollar sign in a [toUTCString]. *)
Lemma occursIn_toUTCString (c : ascii) (tv : option Z) :
  (c = "{" \/ c = "$")%char -> occursIn c (JsDate.toUTCString tv) = false.
Proof.
  intros Hc.
  assert (Hdigit : isDigit c = false) by (destruct Hc as [->| ->]; reflexivity).
  assert (Hminus : Ascii.eqb "-" c = false) by (destruct Hc as [->| ->]; reflexivity).
  destruct tv as [t|]; [|destruct Hc as [->| ->]; reflexivity].
  unfold JsDate.toUTCString, JsDate.utcDateText, JsDate.utcTimeText, JsDate.yearText.
  assert (Hday : forall w, occursIn c (JsDate.dayName w) = false).
  { intros w. unfold JsDate.dayName. generalize (Z.to_nat w). intros n.
    do 8 (destruct n as [|n]; [destruct Hc as [->| ->]; reflexivity|]).
    destruct n; reflexivity. }
  assert (Hmonth : forall m, occursIn c (JsDate.monthName m) = false).
  { intros m. unfold JsDate.monthName. generalize (Z.to_nat (m - 1)). intros n.
    do 13 (destruct n as [|n]; [destruct Hc as [->| ->]; reflexivity|]).
    destruct n; reflexivity. }
  destruct (JsDate.YearFromTime t <? 0);
    rewrite !JsStringMore.occursIn_append, Hday, Hmonth,
      !occursIn_twoDigits, occursIn_fourDigits by assumption;
    destruct Hc as [->| ->]; reflexivity.
Qed.

Lemma occursIn_channelHeader (c : ascii) (tz clockAtCopyright clockAtBuild : Z) :
  (c = "{" \/ c = "$")%char ->
  occursIn c (channelHeader tz clockAtCopyright clockAtBuild) = false.
Proof.
  intros Hc.
  assert (Hdigit : isDigit c = false) by (destruct Hc as [->| ->]; reflexivity).
  assert (Hminus : Ascii.eqb "-" c = false) by (destruct Hc as [->| ->]; reflexivity).
  unfold channelHeader, headerLines, unlines, copyrightField, lastBuildDate.
  rewrite !JsStringMore.occursIn_append.
  rewrite !occursIn_decimal by assumption.
  rewrite !occursIn_toUTCString by assumption.
  destruct Hc as [->| ->]; reflexivity.
Qed.

Lemma rssTemplate_parts (tz clockAtCopyright clockAtBuild : Z) :
  rssTemplate tz clockAtCopyright clockAtBuild
  = channelHeader tz clockAtCopyright clockAtBuild
    +:+ "{blog_entries}" +:+ channelFooter.
Proof.
  change (rssTemplate tz clockAtCopyright clockAtBuild)
    with (unlines (headerLines tz clockAtCopyright clockAtBuild
                   ++ ["{blog_entries}"; ""; "</channel>"; "</rss>"])).
  rewrite unlines_app. reflexivity.
Qed.

(** The placeholder is found where the template has it, whatever the
    clock reads. *)
Lemma rssFeed_parts (tz clockAtCopyright clockAtBuild : Z) (items : list string) :
  rssFeed tz clockAtCopyright clockAtBuild items
  = channelHeader tz clockAtCopyright clockAtBuild
    +:+ substitution "{blog_entries}"
          (channelHeader tz clockAtCopyright clockAtBuild) channelFooter
          (join newline items)
    +:+ channelFooter.
Proof.
  unfold rssFeed, replace. rewrite rssTemplate_parts.
  rewrite (JsStringMore.cut_skip "{" "blog_entries}")
    by (apply occursIn_channelHeader; now left).
  rewrite (JsStringFacts.cut_append "{blog_entries}" channelFooter).
  now rewrite JsStringMore.append_nil_r.
Qed.

End TemplateFacts.

Section FeedLayout.

Variable tz : Z.
Variable clockAtCopyright clockAtBuild : Z.

(** X14.  When no dollar sign occurs in the items, the feed is the
    channel header, the items with an empty line between them, and the
    channel footer, whatever the clock reads. *)
Theorem rssFeed_layout (items : list string) :
  occursIn "$"%char (JsString.join JsString.newline items) = false ->
  rssFeed tz clockAtCopyright clockAtBuild items
  = channelHeader tz clockAtCopyright clockAtBuild
    +:+ JsString.join JsString.newline items +:+ channelFooter.
Proof.
  intros Hplain. rewrite TemplateFacts.rssFeed_parts.
  now rewrite (JsStringMore.substitution_plain _ _ _ _ Hplain).
Qed.

(** X15.  A dollar sign in the items is read as a substitution pattern
    of [replace]: between texts without a dollar sign, two dollar signs
    reach the feed as one, a dollar sign and an ampersand as the
    placeholder, a dollar sign and a backquote as the channel header,
    and a dollar sign and a quote as the channel footer. *)
Theorem rssFeed_dollar_patterns (items : list string) (before after : string) :
  occursIn "$"%char before = false ->
  occursIn "$"%char after = false ->
  let header := channelHeader tz clockAtCopyright clockAtBuild in
  let feed := rssFeed tz clockAtCopyright clockAtBuild items in
  (JsString.join JsString.newline items = before +:+ "$$" +:+ after ->
   feed = header +:+ (before +:+ "$" +:+ after) +:+ channelFooter) /\
  (JsString.join JsString.newline items = before +:+ "$&" +:+ after ->
   feed = header +:+ (before +:+ "{blog_entries}" +:+ after) +:+ channelFooter) /\
  (JsString.join JsString.newline items = before +:+ "$`" +:+ after ->
   feed = header +:+ (before +:+ header +:+ after) +:+ channelFooter) /\
  (JsString.join JsString.newline items = before +:+ "$'" +:+ after ->
   feed = header +:+ (before +:+ channelFooter +:+ after) +:+ channelFooter).
Proof.
  intros Hbefore Hafter header feed. unfold feed, header.
  rewrite TemplateFacts.rssFeed_parts.
  assert (Hsub : forall matched b a pattern,
    JsString.substitution matched b a (before +:+ pattern +:+ after)
    = before +:+ JsString.substitution matched b a (pattern +:+ after)).
  { intros matched b a pattern. clear feed header.
    induction before as [|c rest IH]; [reflexivity|].
    cbn [occursIn] in Hbefore. apply orb_false_iff in Hbefore.
    destruct Hbefore as [Hc Hrest].
    rewrite !JsStringFacts.append_cons. cbn [JsString.substitution].
    rewrite Hc. now rewrite (IH Hrest). }
  repeat split; intros ->; rewrite Hsub;
    change (JsString.substitution ?m ?b ?a (String "$" (String ?d EmptyString) +:+ after))
      with (JsString.substitution m b a (String "$" (String d after)));
    cbn [JsString.substitution]; cbn [Ascii.eqb Bool.eqb];
    rewrite (JsStringMore.substitution_plain _ _ _ _ Hafter); reflexivity.
Qed.

End FeedLayout.

Lemma rssFeed_layout_witness :
  rssFeed 0 0 0 ["<item>a</item>"; "<item>b</item>"]
  = channelHeader 0 0 0
    +:+ JsString.join JsString.newline ["<item>a</item>"; "<item>b</item>"]
    +:+ channelFooter.
Proof.
  apply (rssFeed_layout 0 0 0). reflexivity.
Defined.

Lemma rssFeed_dollar_patterns_witness :
  rssFeed 0 0 0 ["<title>costs $$5</title>"]
  = channelHeader 0 0 0 +:+ ("<title>costs " +:+ "$" +:+ "5</title>") +:+ channelFooter.
Proof.
  apply (rssFeed_dollar_patterns 0 0 0 ["<title>costs $$5</title>"]
           "<title>costs " "5</title>"); reflexivity.
Defined.

(** ** The budget of the description *)

Section Budget.

Import NodeFs.

Variable repoDir : string.
Variable tz : Z.
Variable otherFormats : string -> option Z.
Variable clockAtCopyright clockAtBuild : Z.
Variable stripMarkdown : option string -> string.


End Budget.



(** ** More on the run *)

Section RunMore.

Import NodeFs.

Variable repoDir : string.
Variable tz : Z.
Variable otherFormats : string -> option Z.
Variable clockAtCopyright clockAtBuild : Z.
Variable stripMarkdown : option string -> string.

Let run := main repoDir tz otherFormats clockAtCopyright clockAtBuild stripMarkdown.
Let build := buildFeed repoDir tz otherFormats clockAtCopyright clockAtBuild stripMarkdown.

Lemma rejected_reason {A : Type} (p : promise A) :
  isFulfilled p = false -> exists e, p = Rejected e.
Proof. destruct p as [a|e]; [discriminate | eauto]. Qed.

Lemma listAll_member (fs : gmap string entry) (dirs out : list string)
    (dir name : string) :
  listAll fs dirs = Fulfilled out -> In dir dirs -> lists fs dir name ->
  In (join dir name) out.
Proof.
  unfold listAll. intros Hall Hdir [names [Hread Hname]].
  destruct (all (map _ dirs)) as [nested|e] eqn:Enested; [|discriminate].
  cbn [andThen] in Hall. injection Hall as <-.
  pose proof (NodeFsFacts.all_fulfilled_inv _ _ _ Enested) as Hrel.
  destruct (Forall2_In_l _ _ _ _ Hrel Hdir) as [paths [Hpaths Hdone]].
  cbv beta in Hdone. rewrite Hread in Hdone. cbn [andThen] in Hdone.
  injection Hdone as <-.
  apply List.in_concat. exists (map (join dir) names).
  split; [exact Hpaths | now apply List.in_map].
Qed.

Lemma listAll_unlistable (fs : gmap string entry) (dirs : list string) (dir : string) :
  In dir dirs -> isFulfilled (readdir fs dir) = false ->
  exists e, listAll fs dirs = Rejected e.
Proof.
  intros Hdir Hread. unfold listAll.
  destruct (NodeFsFacts.all_rejected
              (map (fun d => andThen (readdir fs d)
                               (fun names => Fulfilled (map (join d) names))) dirs)
              (andThen (readdir fs dir)
                 (fun names => Fulfilled (map (join dir) names)))) as [e ->].
  - exact (List.in_map
             (fun d => andThen (readdir fs d)
                         (fun names => Fulfilled (map (join d) names))) dirs dir Hdir).
  - destruct (readdir fs dir); [discriminate | reflexivity].
  - exists e. reflexivity.
Qed.

(** A directory below a year that cannot be listed rejects the search
    of that year. *)
Lemma findBlogsInYearDir_unlistable (fs : gmap string entry) (yearDir : string) :
  isFulfilled (readdir fs yearDir) = false \/
  (exists month,
      lists fs yearDir month /\
      isFulfilled (readdir fs (join yearDir month)) = false) \/
  (exists month day,
      lists fs yearDir month /\ lists fs (join yearDir month) day /\
      isFulfilled (readdir fs (join (join yearDir month) day)) = false) ->
  exists e, findBlogsInYearDir fs yearDir = Rejected e.
Proof.
  unfold findBlogsInYearDir. intros Hcases.
  destruct (readdir fs yearDir) as [monthDirs|e] eqn:Eyear; [|cbn; eauto].
  cbn [andThen].
  destruct (listAll fs (map (join yearDir) monthDirs)) as [dayDirs|e] eqn:Edays;
    [|cbn; eauto].
  cbn [andThen].
  destruct Hcases as [Hyear|[[month [Hmonth Hread]]|[month [day [Hmonth [Hday Hread]]]]]].
  - discriminate.
  - destruct Hmonth as [names [Hnames Hin]]. rewrite Eyear in Hnames.
    injection Hnames as <-.
    destruct (listAll_unlistable fs (map (join yearDir) monthDirs) (join yearDir month))
      as [e He]; [now apply List.in_map | exact Hread |].
    rewrite He in Edays. discriminate.
  - apply (listAll_unlistable fs dayDirs (join (join yearDir month) day));
      [|exact Hread].
    apply (listAll_member fs (map (join yearDir) monthDirs)); [exact Edays | | exact Hday].
    destruct Hmonth as [names [Hnames Hin]]. rewrite Eyear in Hnames.
    injection Hnames as <-. now apply List.in_map.
Qed.

(** X16.  A feed that is built holds one item for each scanned path:
    the items are those of the scanned paths in sorted order, each
    rendered from the text read at its path. *)
Theorem buildFeed_one_item_per_post (fs : gmap string entry) (feed : string) :
  build fs = Fulfilled feed ->
  exists scanned items,
    findAllBlogs repoDir fs = Fulfilled scanned /\
    length items = length scanned /\
    List.Forall2 (rendersAs repoDir tz otherFormats stripMarkdown fs)
      (sortBlogs tz otherFormats scanned) items /\
    feed = rssFeed tz clockAtCopyright clockAtBuild items.
Proof.
  intros Hbuild.
  destruct (buildFeed_renders_sorted repoDir tz otherFormats stripMarkdown
              clockAtCopyright clockAtBuild fs feed Hbuild)
    as [scanned [items [Hscan [Hitems Hfeed]]]].
  exists scanned, items. split; [exact Hscan|]. split; [|now split].
  rewrite <- (List.Forall2_length Hitems).
  symmetry. apply Permutation_length, JsArrayFacts.sort_perm.
Qed.

(** X17.  A root that cannot be listed is fatal: the run is rejected
    with the error of [readdir] and the file system stays as it was. *)
Theorem main_rejected_by_unlistable_root (room : option nat) (fs : gmap string entry) :
  isFulfilled (readdir fs repoDir) = false ->
  exists e, readdir fs repoDir = Rejected e /\ run room fs = (Rejected e, fs).
Proof.
  intros Hroot. destruct (rejected_reason _ Hroot) as [e He].
  exists e. split; [exact He|].
  unfold run, main, buildFeed, findAllBlogs. now rewrite He.
Qed.

(** X18.  Below a name that matches the year pattern everything has to
    be a directory down to the day: a year, month or day entry that
    cannot be listed rejects the whole run, and nothing is written. *)
Theorem main_rejected_by_unlistable_entry
    (room : option nat) (fs : gmap string entry) (year : string) :
  lists fs repoDir year -> JsRegExp.yearRegex year = true ->
  isFulfilled (readdir fs (join repoDir year)) = false \/
  (exists month,
      lists fs (join repoDir year) month /\
      isFulfilled (readdir fs (join (join repoDir year) month)) = false) \/
  (exists month day,
      lists fs (join repoDir year) month /\
      lists fs (join (join repoDir year) month) day /\
      isFulfilled (readdir fs (join (join (join repoDir year) month) day)) = false) ->
  exists e, findAllBlogs repoDir fs = Rejected e /\ run room fs = (Rejected e, fs).
Proof.
  intros [results [Hresults Hin]] Hmatch Hcases.
  destruct (findBlogsInYearDir_unlistable fs (join repoDir year) Hcases) as [e0 He0].
  assert (Hscan : exists e, findAllBlogs repoDir fs = Rejected e).
  { unfold findAllBlogs. rewrite Hresults. cbn [andThen].
    destruct (NodeFsFacts.all_rejected
                (map (findBlogsInYearDir fs)
                   (map (join repoDir) (List.filter JsRegExp.yearRegex results)))
                (findBlogsInYearDir fs (join repoDir year))) as [e ->].
    - apply List.in_map, List.in_map, List.filter_In. auto.
    - now rewrite He0.
    - exists e. reflexivity. }
  destruct Hscan as [e He]. exists e. split; [exact He|].
  unfold run, main, buildFeed. now rewrite He.
Qed.

(** X19.  The run succeeds when the scan succeeds, every scanned path
    can be read and the output can be opened: the feed is built, and
    when the volume takes all of it, it is what a reader of the output
    path finds afterwards. *)
Theorem main_succeeds (fs : gmap string entry) (scanned : list string) :
  findAllBlogs repoDir fs = Fulfilled scanned ->
  (forall blog, In blog scanned -> isFulfilled (readFile fs blog) = true) ->
  isFulfilled (openForWriting fs (feedPath repoDir)) = true ->
  exists feed,
    build fs = Fulfilled feed /\
    forall room,
      match room with
      | Some k => (String.length feed <= k)%nat
      | None => True
      end ->
      exists fs',
        run room fs = (Fulfilled tt, fs') /\
        readFile fs' (feedPath repoDir) = Fulfilled feed.
Proof.
  intros Hscan Hreadable Hopen.
  assert (Hposts : exists posts,
    readPosts stripMarkdown fs (sortBlogs tz otherFormats scanned) = Fulfilled posts).
  { unfold readPosts.
    destruct (NodeFsFacts.all_fulfilled
                (fun blog => andThen (readFile fs blog)
                               (fun text => Fulfilled (extractPostInfo stripMarkdown text)))
                (sortBlogs tz otherFormats scanned)) as [posts [Hposts _]].
    - intros blog Hin.
      assert (Hscanned : In blog scanned).
      { exact (Permutation_in blog
                 (Permutation_sym (JsArrayFacts.sort_perm _ scanned)) Hin). }
      pose proof (Hreadable blog Hscanned) as Hread.
      destruct (readFile fs blog); [reflexivity | discriminate].
    - exists posts. exact Hposts. }
  destruct Hposts as [posts Hposts].
  eexists. split.
  { unfold build, buildFeed. rewrite Hscan. cbn [andThen]. rewrite Hposts.
    cbn [andThen]. reflexivity. }
  intros room Hroom. unfold run, main, buildFeed.
  rewrite Hscan. cbn [andThen]. rewrite Hposts. cbn [andThen].
  unfold writeFile.
  destruct (openForWriting fs (feedPath repoDir)) as [opened|e]; [|discriminate].
  set (feed := rssFeed _ _ _ _) in *.
  assert (Hread : forall m : gmap string entry,
    readFile (<[feedPath repoDir := File feed]> m) (feedPath repoDir) = Fulfilled feed).
  { intros m. unfold readFile. now rewrite lookup_insert_eq. }
  destruct room as [k|].
  - destruct (k <? String.length feed)%nat eqn:Hk.
    + apply Nat.ltb_lt in Hk. lia.
    + eexists. split; [reflexivity | apply Hread].
  - eexists. split; [reflexivity | apply Hread].
Qed.

(** Apart from the output path and the directory it lies in, every
    path names after the run what it named before. *)
Lemma main_frame
    (room : option nat) (fs : gmap string entry) (path : string) :
  path <> feedPath repoDir ->
  path <> dirname (feedPath repoDir) ->
  snd (run room fs) !! path = fs !! path.
Proof.
  intros Hfeed Hdir. unfold run, main.
  destruct (buildFeed _ _ _ _ _ _ fs) as [feed|e]; [|reflexivity].
  unfold writeFile, openForWriting.
  destruct (fs !! feedPath repoDir) as [[content|names|]|] eqn:Eold; cbn [snd];
    try reflexivity.
  - destruct room as [k|]; [destruct (k <? String.length feed)%nat|]; cbn [snd];
      now rewrite !lookup_insert_ne by congruence.
  - destruct (fs !! dirname (feedPath repoDir)) as [[content|names|]|]; cbn [snd];
      try reflexivity.
    destruct room as [k|]; [destruct (k <? String.length feed)%nat|]; cbn [snd];
      now rewrite !lookup_insert_ne by congruence.
Qed.

End RunMore.

Lemma buildFeed_one_item_per_post_witness :
  exists scanned items,
    findAllBlogs Samples.repo Samples.fsOnePost = NodeFs.Fulfilled scanned /\
    length items = length scanned /\
    List.Forall2 (rendersAs Samples.repo 0 Samples.noOtherFormats Samples.verbatim
                    Samples.fsOnePost)
      (sortBlogs 0 Samples.noOtherFormats scanned) items /\
    rssFeed 0 0 0
      [ generateRSSItem (extractPostInfo Samples.verbatim "Hello World")
          "https://github.com/francisrstokes/githublog/blob/main/2023/1/1/x.ext"
          "Sun, 01 Jan 2023 00:00:00 GMT" ]
    = rssFeed 0 0 0 items.
Proof.
  apply (buildFeed_one_item_per_post Samples.repo 0 Samples.noOtherFormats 0 0
           Samples.verbatim Samples.fsOnePost).
  vm_compute. reflexivity.
Defined.

Lemma main_rejected_by_unlistable_root_witness :
  exists e,
    NodeFs.readdir Samples.fsOnePost "/srv/elsewhere" = NodeFs.Rejected e /\
    main "/srv/elsewhere" 0 Samples.noOtherFormats 0 0 Samples.verbatim None
         Samples.fsOnePost
    = (NodeFs.Rejected e, Samples.fsOnePost).
Proof.
  apply (main_rejected_by_unlistable_root "/srv/elsewhere" 0 Samples.noOtherFormats 0 0
           Samples.verbatim None Samples.fsOnePost).
  reflexivity.
Defined.

Lemma main_rejected_by_unlistable_entry_witness :
  exists e,
    findAllBlogs Samples.repo MoreSamples.fsStrayFile = NodeFs.Rejected e /\
    main Samples.repo 0 Samples.noOtherFormats 0 0 Samples.verbatim None
         MoreSamples.fsStrayFile
    = (NodeFs.Rejected e, MoreSamples.fsStrayFile).
Proof.
  apply (main_rejected_by_unlistable_entry Samples.repo 0 Samples.noOtherFormats 0 0
           Samples.verbatim None MoreSamples.fsStrayFile "2024").
  - exists ["2024"]. split; [reflexivity | now left].
  - reflexivity.
  - right. left. exists ".DS_Store". split.
    + exists [".DS_Store"; "3"]. split; [reflexivity | now left].
    + reflexivity.
Defined.

Lemma main_succeeds_witness :
  exists feed,
    buildFeed Samples.repo 0 Samples.noOtherFormats 0 0 Samples.verbatim Samples.fsOnePost
    = NodeFs.Fulfilled feed /\
    forall room,
      match room with
      | Some k => (String.length feed <= k)%nat
      | None => True
      end ->
      exists fs',
        main Samples.repo 0 Samples.noOtherFormats 0 0 Samples.verbatim room
             Samples.fsOnePost
        = (NodeFs.Fulfilled tt, fs') /\
        NodeFs.readFile fs' (feedPath Samples.repo) = NodeFs.Fulfilled feed.
Proof.
  apply (main_succeeds Samples.repo 0 Samples.noOtherFormats 0 0 Samples.verbatim
           Samples.fsOnePost ["/home/blog/githublog/2023/1/1/x.ext"]).
  - vm_compute. reflexivity.
  - intros blog [<-|[]]. vm_compute. reflexivity.
  - vm_compute. reflexivity.
Defined.

(** ** A run after a run *)

Section Rerun.

Import NodeFs.

Variable repoDir : string.
Variable tz : Z.
Variable otherFormats : string -> option Z.
Variable stripMarkdown : option string -> string.

Lemma below_refl (dir : string) : below dir dir.
Proof. exists EmptyString. now rewrite JsStringMore.append_nil_r. Qed.

Lemma below_trans (a b c : string) : below a b -> below b c -> below a c.
Proof.
  intros [r ->] [r' ->]. exists (r +:+ r'). apply JsStringFacts.append_assoc.
Qed.

Lemma join_below (dir name : string) : below dir (join dir name).
Proof. unfold join. destruct (JsString.endsWith dir "/"); eexists; reflexivity. Qed.

Lemma readdir_agree (fs fs' : gmap string entry) (path : string) :
  fs' !! path = fs !! path -> readdir fs' path = readdir fs path.
Proof. unfold readdir. now intros ->. Qed.

Lemma readFile_agree (fs fs' : gmap string entry) (path : string) :
  fs' !! path = fs !! path -> readFile fs' path = readFile fs path.
Proof. unfold readFile. now intros ->. Qed.

Lemma listAll_agree (fs fs' : gmap string entry) (root : string) (dirs : list string) :
  agreeBelow fs fs' root ->
  (forall dir, In dir dirs -> below root dir) ->
  listAll fs' dirs = listAll fs dirs.
Proof.
  intros Hagree Hdirs. unfold listAll. f_equal. f_equal.
  apply List.map_ext_in. intros dir Hdir.
  now rewrite (readdir_agree fs fs' dir (Hagree dir (Hdirs dir Hdir))).
Qed.

Lemma listAll_paths (fs : gmap string entry) (dirs out : list string) (path : string) :
  listAll fs dirs = Fulfilled out -> In path out ->
  exists dir name, In dir dirs /\ path = join dir name.
Proof.
  unfold listAll. intros Hall Hpath.
  destruct (all (map _ dirs)) as [nested|e] eqn:Enested; [|discriminate].
  cbn [andThen] in Hall. injection Hall as <-.
  apply List.in_concat in Hpath. destruct Hpath as [paths [Hpaths Hin]].
  pose proof (NodeFsFacts.all_fulfilled_inv _ _ _ Enested) as Hrel.
  destruct (Forall2_In_r _ _ _ _ Hrel Hpaths) as [dir [Hdir Hdone]].
  cbv beta in Hdone. destruct (readdir fs dir) as [names|e]; [|discriminate].
  cbn [andThen] in Hdone. injection Hdone as <-.
  apply List.in_map_iff in Hin. destruct Hin as [name [<- _]].
  exists dir, name. auto.
Qed.

Lemma listAll_below (fs : gmap string entry) (root : string) (dirs out : list string) :
  listAll fs dirs = Fulfilled out ->
  (forall dir, In dir dirs -> below root dir) ->
  forall path, In path out -> below root path.
Proof.
  intros Hall Hdirs path Hpath.
  destruct (listAll_paths fs dirs out path Hall Hpath) as [dir [name [Hdir ->]]].
  exact (below_trans _ _ _ (Hdirs dir Hdir) (join_below dir name)).
Qed.

Lemma findBlogsInYearDir_agree (fs fs' : gmap string entry) (yearDir : string) :
  agreeBelow fs fs' yearDir ->
  findBlogsInYearDir fs' yearDir = findBlogsInYearDir fs yearDir /\
  forall blogs, findBlogsInYearDir fs yearDir = Fulfilled blogs ->
                forall blog, In blog blogs -> below yearDir blog.
Proof.
  intros Hagree. unfold findBlogsInYearDir.
  rewrite (readdir_agree fs fs' yearDir (Hagree yearDir (below_refl yearDir))).
  destruct (readdir fs yearDir) as [monthDirs|e]; [|split; [reflexivity | discriminate]].
  cbn [andThen].
  assert (Hmonths : forall dir, In dir (map (join yearDir) monthDirs) -> below yearDir dir).
  { intros dir Hdir. apply List.in_map_iff in Hdir. destruct Hdir as [month [<- _]].
    apply join_below. }
  rewrite (listAll_agree fs fs' yearDir _ Hagree Hmonths).
  destruct (listAll fs (map (join yearDir) monthDirs)) as [dayDirs|e] eqn:Edays;
    [|split; [reflexivity | discriminate]].
  cbn [andThen].
  pose proof (listAll_below fs yearDir _ _ Edays Hmonths) as Hdays.
  rewrite (listAll_agree fs fs' yearDir _ Hagree Hdays).
  split; [reflexivity|].
  intros blogs Hblogs. exact (listAll_below fs yearDir _ _ Hblogs Hdays).
Qed.

(** The feed depends on the year names of the root and on what lies
    below the year directories, and on nothing else in the file
    system. *)
Lemma buildFeed_agree (clockAtCopyright clockAtBuild : Z) (fs fs' : gmap string entry) :
  andThen (readdir fs' repoDir)
    (fun results => Fulfilled (List.filter JsRegExp.yearRegex results))
  = andThen (readdir fs repoDir)
      (fun results => Fulfilled (List.filter JsRegExp.yearRegex results)) ->
  (forall year, JsRegExp.yearRegex year = true -> agreeBelow fs fs' (join repoDir year)) ->
  buildFeed repoDir tz otherFormats clockAtCopyright clockAtBuild stripMarkdown fs'
  = buildFeed repoDir tz otherFormats clockAtCopyright clockAtBuild stripMarkdown fs.
Proof.
  intros Hroot Hyears.
  assert (Hscan :
    findAllBlogs repoDir fs' = findAllBlogs repoDir fs /\
    forall scanned, findAllBlogs repoDir fs = Fulfilled scanned ->
                    forall blog, In blog scanned -> fs' !! blog = fs !! blog).
  { unfold findAllBlogs.
    destruct (readdir fs repoDir) as [results|e], (readdir fs' repoDir) as [results'|e'];
      cbn [andThen] in *; try discriminate.
    - injection Hroot as Hfilter. rewrite Hfilter.
      set (blogDirs := map (join repoDir) (List.filter JsRegExp.yearRegex results)).
      assert (HblogDirs : forall yearDir, In yearDir blogDirs ->
                                          agreeBelow fs fs' yearDir).
      { intros yearDir Hin. apply List.in_map_iff in Hin.
        destruct Hin as [year [<- Hin]]. apply List.filter_In in Hin.
        apply Hyears, Hin. }
      assert (Hmap : map (findBlogsInYearDir fs') blogDirs
                     = map (findBlogsInYearDir fs) blogDirs).
      { apply List.map_ext_in. intros yearDir Hin.
        apply (findBlogsInYearDir_agree fs fs' yearDir (HblogDirs yearDir Hin)). }
      rewrite Hmap. split; [reflexivity|].
      intros scanned Hscanned blog Hblog.
      destruct (all (map (findBlogsInYearDir fs) blogDirs)) as [nested|e] eqn:Enested;
        [|discriminate].
      cbn [andThen] in Hscanned. injection Hscanned as <-.
      apply List.in_concat in Hblog. destruct Hblog as [blogs [Hblogs Hin]].
      pose proof (NodeFsFacts.all_fulfilled_inv _ _ _ Enested) as Hrel.
      destruct (Forall2_In_r _ _ _ _ Hrel Hblogs) as [yearDir [HyearDir Hfound]].
      cbv beta in Hfound.
      apply (HblogDirs yearDir HyearDir).
      exact (proj2 (findBlogsInYearDir_agree fs fs' yearDir (HblogDirs yearDir HyearDir))
               blogs Hfound blog Hin).
    - injection Hroot as <-. split; [reflexivity | discriminate]. }
  destruct Hscan as [Hscan Hblogs]. unfold buildFeed. rewrite Hscan.
  destruct (findAllBlogs repoDir fs) as [scanned|e]; [|reflexivity].
  cbn [andThen].
  assert (Hposts : readPosts stripMarkdown fs' (sortBlogs tz otherFormats scanned)
                   = readPosts stripMarkdown fs (sortBlogs tz otherFormats scanned)).
  { unfold readPosts. f_equal. apply List.map_ext_in. intros blog Hin.
    rewrite (readFile_agree fs fs' blog); [reflexivity|].
    apply (Hblogs scanned eq_refl).
    exact (Permutation_in blog (Permutation_sym (JsArrayFacts.sort_perm _ scanned)) Hin). }
  now rewrite Hposts.
Qed.

Section NormalRepo.

Hypothesis repoDir_not_empty : repoDir <> EmptyString.
Hypothesis repoDir_no_slash : JsString.endsWith repoDir "/" = false.

Lemma feedPath_plain : feedPath repoDir = repoDir +:+ String "/" "feed.xml".
Proof. unfold feedPath. now rewrite (join_plain repoDir "feed.xml" repoDir_no_slash). Qed.

Lemma feedPath_parent :
  dirname (feedPath repoDir) = repoDir /\ basename (feedPath repoDir) = "feed.xml".
Proof.
  unfold dirname, basename. rewrite feedPath_plain, JsStringMore.split_append.
  change (JsString.split "/" "feed.xml") with ["feed.xml"].
  rewrite List.removelast_last, List.last_last. split; [|reflexivity].
  pose proof (JsStringMore.join_split "/" repoDir) as Hjoin.
  destruct (JsString.split "/" repoDir) as [|first [|second others]] eqn:Esplit.
  - exfalso. exact (JsStringMore.split_nonempty _ _ Esplit).
  - destruct first; [|exact Hjoin]. cbn in Hjoin. congruence.
  - destruct first; exact Hjoin.
Qed.

Lemma append_not_shorter (s t : string) : s +:+ t = s -> t = EmptyString.
Proof.
  intros H. apply (JsStringMore.append_inj_l s).
  now rewrite JsStringMore.append_nil_r.
Qed.

Lemma below_year_not_output (year path : string) :
  JsRegExp.yearRegex year = true -> below (join repoDir year) path ->
  path <> feedPath repoDir /\ path <> dirname (feedPath repoDir).
Proof.
  intros Hyear [rest ->].
  rewrite (proj1 feedPath_parent), feedPath_plain.
  rewrite (join_plain repoDir year repoDir_no_slash).
  rewrite !JsStringFacts.append_assoc.
  destruct year as [|a year']; [discriminate|].
  assert (Ha : a = "2"%char).
  { destruct year' as [|b [|c [|d [|e r]]]]; try discriminate.
    cbn [JsRegExp.yearRegex] in Hyear.
    repeat (apply andb_true_iff in Hyear; destruct Hyear as [Hyear _]).
    now apply Ascii.eqb_eq in Hyear. }
  subst a. split; intros H.
  - apply JsStringMore.append_inj_l in H. discriminate.
  - apply append_not_shorter in H. discriminate.
Qed.

Lemma main_root_listing (clockAtCopyright clockAtBuild : Z) (room : option nat)
    (fs : gmap string entry) :
  let fs' := snd (main repoDir tz otherFormats clockAtCopyright clockAtBuild
                       stripMarkdown room fs) in
  fs' !! repoDir = fs !! repoDir \/
  exists names, fs !! repoDir = Some (Dir names) /\
                fs' !! repoDir = Some (Dir (names ++ ["feed.xml"])).
Proof.
  assert (Hne : repoDir <> feedPath repoDir).
  { rewrite feedPath_plain. intros H. symmetry in H.
    apply append_not_shorter in H. discriminate. }
  destruct feedPath_parent as [Hparent Hbase].
  cbv zeta. unfold main.
  destruct (buildFeed _ _ _ _ _ _ fs) as [feed|e]; [|now left].
  unfold writeFile, openForWriting. rewrite Hparent, Hbase.
  destruct (fs !! feedPath repoDir) as [[content|names|]|] eqn:Eold; cbn [snd];
    try (now left).
  - left. destruct room as [k|]; [destruct (k <? String.length feed)%nat|]; cbn [snd];
      now rewrite !lookup_insert_ne by congruence.
  - destruct (fs !! repoDir) as [[content|names|]|] eqn:Eroot; cbn [snd];
      try (now left).
    right. exists names. split; [reflexivity|].
    destruct room as [k|]; [destruct (k <? String.length feed)%nat|]; cbn [snd];
      rewrite !lookup_insert_ne by congruence; apply lookup_insert_eq.
Qed.

Lemma main_paths_kept
    (clockAtCopyright clockAtBuild : Z) (room : option nat) (fs : gmap string entry) :
  let fs' := snd (main repoDir tz otherFormats clockAtCopyright clockAtBuild
                       stripMarkdown room fs) in
  (forall path, path <> feedPath repoDir -> path <> repoDir ->
                fs' !! path = fs !! path) /\
  (fs' !! repoDir = fs !! repoDir \/
   exists names, fs !! repoDir = Some (Dir names) /\
                 fs' !! repoDir = Some (Dir (names ++ ["feed.xml"]))).
Proof.
  cbv zeta. split.
  - intros path Hfeed Hroot. apply main_frame; [exact Hfeed|].
    now rewrite (proj1 feedPath_parent).
  - exact (main_root_listing clockAtCopyright clockAtBuild room fs).
Qed.

Lemma buildFeed_on_what_main_leaves
    (clockAtCopyright clockAtBuild laterCopyright laterBuild : Z)
    (room : option nat) (fs : gmap string entry) :
  buildFeed repoDir tz otherFormats laterCopyright laterBuild stripMarkdown
    (snd (main repoDir tz otherFormats clockAtCopyright clockAtBuild stripMarkdown
               room fs))
  = buildFeed repoDir tz otherFormats laterCopyright laterBuild stripMarkdown fs.
Proof.
  apply buildFeed_agree.
  - unfold readdir.
    destruct (main_root_listing clockAtCopyright clockAtBuild room fs)
      as [->|[names [Hold ->]]]; [reflexivity|].
    rewrite Hold. cbn [andThen]. now rewrite List.filter_app, app_nil_r.
  - intros year Hyear path Hpath.
    destruct (below_year_not_output year path Hyear Hpath) as [Hfeed Hdir].
    exact (main_frame repoDir tz otherFormats clockAtCopyright clockAtBuild
             stripMarkdown room fs path Hfeed Hdir).
Qed.

End NormalRepo.

(** X20.  The run writes nowhere else.  For a repository that is not
    the root of the file system: apart from the output path, and the
    listing of the repository, which gains the name of the feed when
    the feed is new, every path names after the run what it named
    before, whether the run is fulfilled or rejected. *)
Theorem main_leaves_other_paths
    (clockAtCopyright clockAtBuild : Z) (room : option nat) (fs : gmap string entry) :
  repoDir <> EmptyString ->
  JsString.endsWith repoDir "/" = false ->
  let fs' := snd (main repoDir tz otherFormats clockAtCopyright clockAtBuild
                       stripMarkdown room fs) in
  (forall path, path <> feedPath repoDir -> path <> repoDir ->
                fs' !! path = fs !! path) /\
  (fs' !! repoDir = fs !! repoDir \/
   exists names names',
     fs !! repoDir = Some (Dir names) /\
     fs' !! repoDir = Some (Dir names') /\
     Permutation names' ("feed.xml" :: names)).
Proof.
  intros Hne Hslash.
  destruct (main_paths_kept Hne Hslash clockAtCopyright clockAtBuild room fs)
    as [Hframe Hroot].
  cbv zeta in *. split; [exact Hframe|].
  destruct Hroot as [Hsame|[names [Hold Hnew]]]; [now left|].
  right. exists names, (names ++ ["feed.xml"]).
  split; [exact Hold|]. split; [exact Hnew|].
  symmetry. apply Permutation_cons_append.
Qed.

(** X21.  The output of a run is not an input of the next.  For a
    repository that is not the root of the file system: on the file
    system a run leaves, fulfilled or rejected, a run builds the feed it
    would have built on the file system before. *)
Theorem buildFeed_after_main
    (clockAtCopyright clockAtBuild laterCopyright laterBuild : Z)
    (room : option nat) (fs : gmap string entry) :
  repoDir <> EmptyString ->
  JsString.endsWith repoDir "/" = false ->
  buildFeed repoDir tz otherFormats laterCopyright laterBuild stripMarkdown
    (snd (main repoDir tz otherFormats clockAtCopyright clockAtBuild stripMarkdown
               room fs))
  = buildFeed repoDir tz otherFormats laterCopyright laterBuild stripMarkdown fs.
Proof. intros Hne Hslash. apply buildFeed_on_what_main_leaves; assumption. Qed.

End Rerun.


Lemma main_leaves_other_paths_witness :
  let fs' := snd (main Samples.repo 0 Samples.noOtherFormats 0 0 Samples.verbatim None
                       Samples.fsOnePost) in
  (forall path, path <> feedPath Samples.repo -> path <> Samples.repo ->
                fs' !! path = Samples.fsOnePost !! path) /\
  (fs' !! Samples.repo = Samples.fsOnePost !! Samples.repo \/
   exists names names',
     Samples.fsOnePost !! Samples.repo = Some (NodeFs.Dir names) /\
     fs' !! Samples.repo = Some (NodeFs.Dir names') /\
     Permutation names' ("feed.xml" :: names)).
Proof.
  apply (main_leaves_other_paths Samples.repo 0 Samples.noOtherFormats Samples.verbatim
           0 0 None Samples.fsOnePost).
  - intros H. vm_compute in H. discriminate H.
  - reflexivity.
Defined.

Lemma buildFeed_after_main_witness :
  buildFeed Samples.repo 0 Samples.noOtherFormats 1000 1000 Samples.verbatim
    (snd (main Samples.repo 0 Samples.noOtherFormats 0 0 Samples.verbatim None
               Samples.fsOnePost))
  = buildFeed Samples.repo 0 Samples.noOtherFormats 1000 1000 Samples.verbatim
      Samples.fsOnePost.
Proof.
  apply (buildFeed_after_main Samples.repo 0 Samples.noOtherFormats Samples.verbatim
           0 0 1000 1000 None Samples.fsOnePost).
  - intros H. vm_compute in H. discriminate H.
  - reflexivity.
Defined.

Lemma url_injective_witness :
  url Samples.repo "/home/blog/githublog/2024/5/10/cordic.md"
  <> url Samples.repo "/home/blog/githublog/2024/11/26/getting-an-ip-address.md".
Proof.
  apply (url_injective Samples.repo "/2024/5/10/cordic.md"
           "/2024/11/26/getting-an-ip-address.md").
  discriminate.
Defined.

(** ** Two runs *)

Module TwoRunsFacts.

Import JsString.

(** A replacement text without the pattern [$`] does not look at what
    stands before the match. *)
Lemma substitution_before_unused (matched before before' after : string)
    (replacement : string) :
  copiesBefore replacement = false ->
  substitution matched before after replacement
  = substitution matched before' after replacement.
Proof.
  assert (H : forall n r, (String.length r <= n)%nat -> copiesBefore r = false ->
    substitution matched before after r = substitution matched before' after r).
  { induction n as [|n IH]; intros r Hlen Hr.
    - destruct r; [reflexivity | cbn in Hlen; lia].
    - destruct r as [|c rest]; [reflexivity|].
      cbn [String.length] in Hlen.
      cbn [copiesBefore substitution] in *.
      destruct (Ascii.eqb c "$").
      + destruct rest as [|d rest']; [reflexivity|].
        cbn [String.length] in Hlen.
        destruct (Ascii.eqb d "$"); [now rewrite (IH rest') by (assumption || lia)|].
        destruct (Ascii.eqb d "&"); [now rewrite (IH rest') by (assumption || lia)|].
        destruct (Ascii.eqb d "`"); [discriminate|].
        destruct (Ascii.eqb d "'"); [now rewrite (IH rest') by (assumption || lia)|].
        now rewrite (IH (String d rest')) by (assumption || cbn [String.length]; lia).
      + now rewrite (IH rest) by (assumption || lia). }
  intros Hr. exact (H (String.length replacement) replacement (le_n _) Hr).
Qed.

(** The clock reaches the header in three places. *)
Lemma channelHeader_fields (tz clockAtCopyright clockAtBuild : Z) :
  channelHeader tz clockAtCopyright clockAtBuild
  = headerWith (decimal (JsDate.getFullYear tz clockAtCopyright))
               (JsDate.toUTCString (Some clockAtBuild)).
Proof.
  unfold channelHeader, headerLines, headerWith, copyrightField, lastBuildDate.
  cbn [unlines]. now rewrite !JsStringFacts.append_assoc.
Qed.

End TwoRunsFacts.

Section TwoRuns.

Import NodeFs.

Variable repoDir : string.
Variable tz : Z.
Variable otherFormats : string -> option Z.
Variable stripMarkdown : option string -> string.

(** The items of a feed are those of every feed built on that file
    system, whatever the clock reads. *)
Lemma buildFeed_items (clockAtCopyright clockAtBuild : Z)
    (fs : gmap string entry) (feed : string) :
  buildFeed repoDir tz otherFormats clockAtCopyright clockAtBuild stripMarkdown fs
  = Fulfilled feed ->
  exists scanned items,
    findAllBlogs repoDir fs = Fulfilled scanned /\
    List.Forall2 (rendersAs repoDir tz otherFormats stripMarkdown fs)
      (sortBlogs tz otherFormats scanned) items /\
    forall copyright build,
      buildFeed repoDir tz otherFormats copyright build stripMarkdown fs
      = Fulfilled (rssFeed tz copyright build items).
Proof.
  unfold buildFeed. intros Hbuild.
  destruct (findAllBlogs repoDir fs) as [scanned|e]; [|discriminate].
  cbn [andThen] in *.
  destruct (readPosts stripMarkdown fs (sortBlogs tz otherFormats scanned))
    as [posts|e] eqn:Eposts; [|discriminate].
  cbn [andThen] in *.
  exists scanned. eexists. split; [reflexivity|]. split; [|reflexivity].
  apply rssItems_rendersAs, NodeFsFacts.all_fulfilled_inv, Eposts.
Qed.

(** A run that is fulfilled has built a feed, and leaves it at the
    output path. *)
Lemma main_fulfilled_feed (clockAtCopyright clockAtBuild : Z) (room : option nat)
    (fs : gmap string entry) :
  let run := main repoDir tz otherFormats clockAtCopyright clockAtBuild stripMarkdown
                  room fs in
  fst run = Fulfilled tt ->
  exists feed,
    buildFeed repoDir tz otherFormats clockAtCopyright clockAtBuild stripMarkdown fs
    = Fulfilled feed /\
    readFile (snd run) (feedPath repoDir) = Fulfilled feed.
Proof.
  cbv zeta. unfold main.
  destruct (buildFeed _ _ _ _ _ _ fs) as [feed|e]; [|discriminate].
  intros Hrun. exists feed. split; [reflexivity|].
  unfold writeFile in *.
  destruct (openForWriting fs (feedPath repoDir)) as [opened|e]; [|discriminate].
  unfold readFile.
  destruct room as [k|]; [destruct (k <? String.length feed)%nat; [discriminate|]|];
    cbn [snd]; now rewrite lookup_insert_eq.
Qed.

(** C9, as the program has it.  Two runs, the second on the file system
    the first leaves, both fulfilled: the two feeds are the header
    around the three texts of the clock of each run (the year of the
    copyright line, and the build time in [lastBuildDate] and in the
    [pubDate] of the channel), what [replace] makes of one and the same
    items, and the footer.  Unless the items hold the pattern [$`],
    which copies the header into them, that middle part is the same in
    both feeds. *)
Theorem main_twice_differs_in_clock_fields
    (copyright1 build1 copyright2 build2 : Z) (room1 room2 : option nat)
    (fs : gmap string entry) :
  repoDir <> EmptyString ->
  JsString.endsWith repoDir "/" = false ->
  let run1 := main repoDir tz otherFormats copyright1 build1 stripMarkdown room1 fs in
  let run2 := main repoDir tz otherFormats copyright2 build2 stripMarkdown room2
                   (snd run1) in
  let header1 := headerWith (JsString.decimal (JsDate.getFullYear tz copyright1))
                            (JsDate.toUTCString (Some build1)) in
  let header2 := headerWith (JsString.decimal (JsDate.getFullYear tz copyright2))
                            (JsDate.toUTCString (Some build2)) in
  fst run1 = Fulfilled tt ->
  fst run2 = Fulfilled tt ->
  exists scanned items,
    findAllBlogs repoDir fs = Fulfilled scanned /\
    List.Forall2 (rendersAs repoDir tz otherFormats stripMarkdown fs)
      (sortBlogs tz otherFormats scanned) items /\
    let entries header :=
      JsString.substitution "{blog_entries}" header channelFooter
        (JsString.join JsString.newline items) in
    readFile (snd run1) (feedPath repoDir)
    = Fulfilled (header1 +:+ entries header1 +:+ channelFooter) /\
    readFile (snd run2) (feedPath repoDir)
    = Fulfilled (header2 +:+ entries header2 +:+ channelFooter) /\
    (copiesBefore (JsString.join JsString.newline items) = false ->
     entries header1 = entries header2).
Proof.
  intros Hne Hslash run1 run2 header1 header2 Hrun1 Hrun2.
  destruct (main_fulfilled_feed copyright1 build1 room1 fs Hrun1)
    as [feed1 [Hbuild1 Hread1]].
  destruct (main_fulfilled_feed copyright2 build2 room2 (snd run1) Hrun2)
    as [feed2 [Hbuild2 Hread2]].
  fold run1 in Hread1. fold run2 in Hread2.
  unfold run1 in Hbuild2.
  rewrite (buildFeed_on_what_main_leaves repoDir tz otherFormats stripMarkdown
             Hne Hslash) in Hbuild2.
  destruct (buildFeed_items copyright1 build1 fs feed1 Hbuild1)
    as [scanned [items [Hscan [Hitems Hfeeds]]]].
  rewrite Hfeeds in Hbuild1, Hbuild2.
  injection Hbuild1 as <-. injection Hbuild2 as <-.
  exists scanned, items. split; [exact Hscan|]. split; [exact Hitems|].
  cbv zeta. unfold header1, header2.
  rewrite <- !TwoRunsFacts.channelHeader_fields, <- !TemplateFacts.rssFeed_parts.
  split; [exact Hread1|]. split; [exact Hread2|].
  apply TwoRunsFacts.substitution_before_unused.
Qed.

End TwoRuns.

Lemma main_twice_differs_in_clock_fields_witness :
  let run1 := main Samples.repo 0 Samples.noOtherFormats
                   Samples.lastSecondOf2023 Samples.lastSecondOf2023
                   Reducers.lineClosing None Samples.fsOnePost in
  let run2 := main Samples.repo 0 Samples.noOtherFormats
                   Samples.secondSecondOf2024 Samples.secondSecondOf2024
                   Reducers.lineClosing None (snd run1) in
  let header1 := headerWith (JsString.decimal (JsDate.getFullYear 0 Samples.lastSecondOf2023))
                            (JsDate.toUTCString (Some Samples.lastSecondOf2023)) in
  let header2 := headerWith (JsString.decimal (JsDate.getFullYear 0 Samples.secondSecondOf2024))
                            (JsDate.toUTCString (Some Samples.secondSecondOf2024)) in
  exists scanned items,
    findAllBlogs Samples.repo Samples.fsOnePost = NodeFs.Fulfilled scanned /\
    List.Forall2 (rendersAs Samples.repo 0 Samples.noOtherFormats Reducers.lineClosing
                    Samples.fsOnePost)
      (sortBlogs 0 Samples.noOtherFormats scanned) items /\
    let entries header :=
      JsString.substitution "{blog_entries}" header channelFooter
        (JsString.join JsString.newline items) in
    NodeFs.readFile (snd run1) (feedPath Samples.repo)
    = NodeFs.Fulfilled (header1 +:+ entries header1 +:+ channelFooter) /\
    NodeFs.readFile (snd run2) (feedPath Samples.repo)
    = NodeFs.Fulfilled (header2 +:+ entries header2 +:+ channelFooter) /\
    (copiesBefore (JsString.join JsString.newline items) = false ->
     entries header1 = entries header2).
Proof.
  apply (main_twice_differs_in_clock_fields Samples.repo 0 Samples.noOtherFormats
           Reducers.lineClosing Samples.lastSecondOf2023 Samples.lastSecondOf2023
           Samples.secondSecondOf2024 Samples.secondSecondOf2024 None None
           Samples.fsOnePost).
  - intros H. vm_compute in H. discriminate H.
  - reflexivity.
  - vm_compute. reflexivity.
  - vm_compute. reflexivity.
Defined.
